(** * Lexical proximity: shingling, MinHash signatures, pairwise similarity

    A shallow embedding of [data_loader.py] (class [DataLoader]) and
    [lexical_proximity_algorithm.py] (class [LexicalProximityAlgorithm]),
    followed by the properties of the similarity-estimation pipeline.

    Conventions of the embedding
    - Python [int] is [Z] (unbounded); [%] with a non-zero right operand is
      [Z.modulo] (the result has the sign of the divisor in both).
    - A Python [str] is the list of its code points; [bytes] is a list of
      byte values.
    - A Python [list] is a [list]; a [set] of shingles is the duplicate-free
      list of its members in the order in which iteration visits them, so two
      equal sets may be enumerated differently; the set built by the
      coefficient sampler is a [gset Z].
    - A [dict] is the association list of its items in insertion order, which
      is the order in which [for key in d] visits it.
    - A call either returns, raises, or is still running when the model's
      iteration budget is spent: type [result].
    - [count / num_hashes] is kept as the exact rational quotient, in lowest
      terms; the float Python returns is that quotient rounded to nearest.
    - The file system is a parameter: what a directory lists and what
      reading a file of it gives. The loader's methods change the loader, so
      they return the loader they leave together with their outcome.
    - [str.lower] is exact below code point 128; above, the Unicode case
      tables it consults are a parameter. *)

From stdpp Require Import base numbers list sets gmap strings.
From Stdlib Require Import QArith Qreduction.

Local Open Scope Z_scope.

(** ** Outcomes of a call *)

Inductive exn : Set :=
| IndexError
| KeyError
| ValueError
| ZeroDivisionError
| UnicodeEncodeError.

Inductive result (A : Type) : Type :=
| Ok (a : A)
| Raise (e : exn)
| OutOfFuel.

Arguments Ok {A} a.
Arguments Raise {A} e.
Arguments OutOfFuel {A}.

#[global] Instance result_ret : MRet result := @Ok.
#[global] Instance result_bind : MBind result := λ A B f m,
  match m with
  | Ok a => f a
  | Raise e => Raise e
  | OutOfFuel => OutOfFuel
  end.

(** [for x in xs: s = body(x, s)], the loop state [s] threaded through. *)
Fixpoint for_in {A S : Type} (xs : list A) (body : A → S → result S) (s : S)
  : result S :=
  match xs with
  | [] => Ok s
  | x :: xs' => s' ← body x s; for_in xs' body s'
  end.

(** ** Python built-ins used by the two classes *)

Module Py.

Definition len {A : Type} (l : list A) : Z := Z.of_nat (length l).

(** [range(lo, hi)]; empty when [hi <= lo]. *)
Definition range (lo hi : Z) : list Z := seqZ lo (hi - lo).

(** [l[i]]: a negative index counts from the end; out of range raises. *)
Definition getitem {A : Type} (l : list A) (i : Z) : result A :=
  let j := if i <? 0 then i + len l else i in
  if (0 <=? j) && (j <? len l)
  then from_option Ok (Raise IndexError) (l !! Z.to_nat j)
  else Raise IndexError.

(** [l[lo:hi]]: both bounds are clamped into [0, len l]. *)
Definition slice {A : Type} (l : list A) (lo hi : Z) : list A :=
  let clamp i := if i <? 0 then Z.max 0 (i + len l) else Z.min i (len l) in
  take (Z.to_nat (clamp hi - clamp lo)) (drop (Z.to_nat (clamp lo)) l).

(** [a % b] on integers. *)
Definition mod_ (a b : Z) : result Z :=
  if b =? 0 then Raise ZeroDivisionError else Ok (a `mod` b).

(** [a / b] on integers (true division), as the exact quotient. *)
Definition truediv (a b : Z) : result Q :=
  if b =? 0 then Raise ZeroDivisionError
  else Ok (Qred (Qmake (a * Z.sgn b) (Z.to_pos (Z.abs b)))).

(** *** Strings *)

Definition str : Type := list Z.
Definition bytes : Type := list Z.

(** Code points for which [str.isspace] holds; [str.split()] without
    arguments separates on runs of these. *)
Definition isspace (c : Z) : bool :=
  ((0x09 <=? c) && (c <=? 0x0D)) || ((0x1C <=? c) && (c <=? 0x20))
  || (c =? 0x85) || (c =? 0xA0) || (c =? 0x1680)
  || ((0x2000 <=? c) && (c <=? 0x200A))
  || (c =? 0x2028) || (c =? 0x2029) || (c =? 0x202F) || (c =? 0x205F)
  || (c =? 0x3000).

(** [split_from text word]: [word] is the word being read. *)
Fixpoint split_from (text : str) (word : str) : list str :=
  match text with
  | [] => match word with [] => [] | _ => [word] end
  | c :: rest =>
      if isspace c
      then match word with
           | [] => split_from rest []
           | _ => word :: split_from rest []
           end
      else split_from rest (word ++ [c])
  end.

(** [text.split()] *)
Definition split (text : str) : list str := split_from text [].

(** [sep.join(words)] *)
Fixpoint join (sep : str) (words : list str) : str :=
  match words with
  | [] => []
  | [w] => w
  | w :: ws => w ++ sep ++ join sep ws
  end.

Definition is_surrogate (c : Z) : bool := (0xD800 <=? c) && (c <=? 0xDFFF).

Definition continuation (c : Z) (shift : Z) : Z :=
  Z.lor 0x80 (Z.land (Z.shiftr c shift) 0x3F).

(** The UTF-8 encoding of one code point; a lone surrogate has none. *)
Definition encode_char (c : Z) : result bytes :=
  if c <? 0x80 then Ok [c]
  else if c <? 0x800 then
    Ok [Z.lor 0xC0 (Z.shiftr c 6); continuation c 0]
  else if c <? 0x10000 then
    if is_surrogate c then Raise UnicodeEncodeError
    else Ok [Z.lor 0xE0 (Z.shiftr c 12); continuation c 6; continuation c 0]
  else
    Ok [Z.lor 0xF0 (Z.shiftr c 18); continuation c 12; continuation c 6;
        continuation c 0].

(** [s.encode('utf-8')] *)
Fixpoint encode_utf8 (s : str) : result bytes :=
  match s with
  | [] => Ok []
  | c :: rest =>
      b ← encode_char c; bs ← encode_utf8 rest; Ok (b ++ bs)
  end.

(** *** [binascii.crc32]: the CRC-32 of zlib (reflected polynomial
    [0xEDB88320], initial value and final complement [0xFFFFFFFF]). *)

Definition crc32_shift (crc : Z) : Z :=
  if Z.testbit crc 0 then Z.lxor (Z.shiftr crc 1) 0xEDB88320
  else Z.shiftr crc 1.

Definition crc32_update (crc : Z) (byte : Z) : Z :=
  Nat.iter 8 crc32_shift (Z.lxor crc byte).

Definition crc32 (data : bytes) : Z :=
  Z.lxor (fold_left crc32_update data 0xFFFFFFFF) 0xFFFFFFFF.

(** *** Sets of integers in iteration order *)

Definition pyset : Type := list Z.

(** [s.add(x)] *)
Definition set_add (x : Z) (s : pyset) : pyset :=
  if bool_decide (x ∈ s) then s else s ++ [x].

(** Equality of two sets, whatever their iteration orders. *)
Definition set_eq (s1 s2 : pyset) : Prop := ∀ x, x ∈ s1 ↔ x ∈ s2.

(** *** Dictionaries with integer keys, in insertion order *)

Definition dict (V : Type) : Type := list (Z * V).

Definition keys {V : Type} (d : dict V) : list Z := d.*1.

(** [d[k]] *)
Fixpoint dict_getitem {V : Type} (d : dict V) (k : Z) : result V :=
  match d with
  | [] => Raise KeyError
  | (k', v) :: d' => if bool_decide (k' = k) then Ok v else dict_getitem d' k
  end.

(** *** [random.randint]

    [rng n] is the raw value the process-global generator delivers at its
    [n]-th use; [randint(a, b)] maps it into [a..b], so that every sequence
    of in-range draws is the image of some [rng]. The generator's state is
    the number of values consumed so far. *)
Definition randint (rng : nat → Z) (a b : Z) (cursor : nat)
  : result (Z * nat) :=
  if b - a + 1 <=? 0 then Raise ValueError
  else Ok (a + rng cursor `mod` (b - a + 1), S cursor).

(** *** Text normalisation built-ins *)

(** [s.endswith(suffix)] *)
Definition endswith (s suffix : str) : bool :=
  bool_decide (length suffix ≤ length s)%nat
  && bool_decide (drop (length s - length suffix) s = suffix).

(** [re.sub(r'\s+', ' ', text)]: every maximal run of whitespace becomes one
    space; [in_run] tells that the previous code point was whitespace. *)
Fixpoint sub_whitespace_from (text : str) (in_run : bool) : str :=
  match text with
  | [] => []
  | c :: rest =>
      if isspace c
      then if in_run then sub_whitespace_from rest true
           else 0x20 :: sub_whitespace_from rest true
      else c :: sub_whitespace_from rest false
  end.

Definition sub_whitespace (text : str) : str := sub_whitespace_from text false.

(** Membership in [string.punctuation]. *)
Definition is_punctuation (c : Z) : bool :=
  ((0x21 <=? c) && (c <=? 0x2F)) || ((0x3A <=? c) && (c <=? 0x40))
  || ((0x5B <=? c) && (c <=? 0x60)) || ((0x7B <=? c) && (c <=? 0x7E)).

(** [s.translate(str.maketrans('', '', string.punctuation))] *)
Definition delete_punctuation (s : str) : str :=
  filter (λ c, is_punctuation c = false) s.

Definition lower_ascii (c : Z) : Z :=
  if (0x41 <=? c) && (c <=? 0x5A) then c + 0x20 else c.

(** [s.lower()]. A code point below 128 is lowered on its own; the lowering
    of any other code point comes from the Unicode case tables and, for the
    capital sigma, from its neighbours: [unicode_lower s i] stands for what
    those give at position [i] of [s]. *)
Definition lower (unicode_lower : str → nat → str) (s : str) : str :=
  mjoin (imap (λ i c, if c <? 0x80 then [lower_ascii c]
                      else unicode_lower s i) s).

(** [d[k] = v]: an existing key keeps its place, a new one goes last. *)
Fixpoint dict_setitem {V : Type} (d : dict V) (k : Z) (v : V) : dict V :=
  match d with
  | [] => [(k, v)]
  | (k', v') :: d' =>
      if bool_decide (k' = k) then (k, v) :: d'
      else (k', v') :: dict_setitem d' k v
  end.

(** *** Files

    What [os.listdir] and [open(...).read()] can raise, and the file system
    as the loader sees it: the names a directory lists, in listing order,
    and the decoded content of [os.path.join(directory, name)]. *)
Inductive io_exn : Set :=
| OSError
| UnicodeDecodeError.

Record filesystem : Type := mk_filesystem {
  listdir : str → io_exn + list str;
  read_text : str → str → io_exn + str
}.

End Py.

(** ** [data_loader.py] *)

Module DataLoader.

Record t : Type := mk {
  directory : Py.str;
  doc_counter : Z;
  docs_as_sets : Py.dict Py.pyset;
  shingle_size : Z
}.

(** [DataLoader(directory, shingle_size)] *)
Definition __init__ (directory : Py.str) (shingle_size : Z) : result t :=
  Ok {| directory := directory;
        doc_counter := 0;
        docs_as_sets := [];
        shingle_size := shingle_size |}.

(** [generate_shingles(self, text)] *)
Definition generate_shingles (self : t) (text : Py.str) : result Py.pyset :=
  let words := Py.split text in
  for_in (Py.range 0 (Py.len words - shingle_size self + 1))
    (λ i shingles,
       let shingle :=
         Py.join [0x20] (Py.slice words i (i + shingle_size self)) in
       encoded ← Py.encode_utf8 shingle;
       let crc := Z.land (Py.crc32 encoded) 0xffffffff in
       Ok (Py.set_add crc shingles))
    [].

(** [basic_preprocess(self, text)] *)
Definition basic_preprocess (unicode_lower : Py.str → nat → Py.str)
    (self : t) (text : Py.str) : Py.str :=
  Py.lower unicode_lower (Py.delete_punctuation (Py.sub_whitespace text)).

Definition with_doc_counter (self : t) (n : Z) : t :=
  mk (directory self) n (docs_as_sets self) (shingle_size self).

Definition with_docs_as_sets (self : t) (d : Py.dict Py.pyset) : t :=
  mk (directory self) (doc_counter self) d (shingle_size self).

(** The body of the generator [load_documents(self)] over the names still
    to visit, run to exhaustion: the loader it leaves and the pairs it has
    yielded, or the exception that ended it. *)
Fixpoint load_documents_from (fs : Py.filesystem) (self : t)
    (filenames : list Py.str) : t * (Py.io_exn + list (Z * Py.str)) :=
  match filenames with
  | [] => (self, inr [])
  | filename :: rest =>
      if Py.endswith filename [0x2E; 0x74; 0x78; 0x74] then
        match Py.read_text fs (directory self) filename with
        | inl e => (self, inl e)
        | inr text =>
            let self := with_doc_counter self (doc_counter self + 1) in
            match load_documents_from fs self rest with
            | (self', inr yielded) =>
                (self', inr ((doc_counter self, text) :: yielded))
            | (self', inl e) => (self', inl e)
            end
        end
      else load_documents_from fs self rest
  end.

(** [list(self.load_documents())] *)
Definition load_documents (fs : Py.filesystem) (self : t)
  : t * (Py.io_exn + list (Z * Py.str)) :=
  match Py.listdir fs (directory self) with
  | inl e => (self, inl e)
  | inr filenames => load_documents_from fs self filenames
  end.

(** The loop of [get_docs_as_sets]: the generator is resumed for one
    document, which is processed and stored before the next is read. *)
Fixpoint get_docs_from (fs : Py.filesystem)
    (unicode_lower : Py.str → nat → Py.str) (self : t)
    (filenames : list Py.str) : t * (Py.io_exn + result unit) :=
  match filenames with
  | [] => (self, inr (Ok ()))
  | filename :: rest =>
      if Py.endswith filename [0x2E; 0x74; 0x78; 0x74] then
        match Py.read_text fs (directory self) filename with
        | inl e => (self, inl e)
        | inr text =>
            let self := with_doc_counter self (doc_counter self + 1) in
            let docID := doc_counter self in
            let processed_text := basic_preprocess unicode_lower self text in
            match generate_shingles self processed_text with
            | Ok shingles =>
                let self :=
                  with_docs_as_sets self
                    (Py.dict_setitem (docs_as_sets self) docID shingles) in
                get_docs_from fs unicode_lower self rest
            | Raise e => (self, inr (Raise e))
            | OutOfFuel => (self, inr OutOfFuel)
            end
        end
      else get_docs_from fs unicode_lower self rest
  end.

(** [get_docs_as_sets(self)]: the loader afterwards, and the dictionary
    returned (the loader's own) or the exception raised. *)
Definition get_docs_as_sets (fs : Py.filesystem)
    (unicode_lower : Py.str → nat → Py.str) (self : t)
  : t * (Py.io_exn + result (Py.dict Py.pyset)) :=
  match Py.listdir fs (directory self) with
  | inl e => (self, inl e)
  | inr filenames =>
      match get_docs_from fs unicode_lower self filenames with
      | (self', inr (Ok _)) => (self', inr (Ok (docs_as_sets self')))
      | (self', inr (Raise e)) => (self', inr (Raise e))
      | (self', inr OutOfFuel) => (self', inr OutOfFuel)
      | (self', inl e) => (self', inl e)
      end
  end.

End DataLoader.

(** ** [lexical_proximity_algorithm.py] *)

Module LexicalProximityAlgorithm.

Record t : Type := mk {
  docs_as_sets : Py.dict Py.pyset;
  num_hashes : Z;
  similarity_threshold : Q;
  num_docs : Z;
  max_shingle : Z;
  next_prime : Z;
  coeff_a : list Z;
  coeff_b : list Z
}.

Definition with_coeff_a (self : t) (a : list Z) : t :=
  mk (docs_as_sets self) (num_hashes self) (similarity_threshold self)
     (num_docs self) (max_shingle self) (next_prime self) a (coeff_b self).

Definition with_coeff_b (self : t) (b : list Z) : t :=
  mk (docs_as_sets self) (num_hashes self) (similarity_threshold self)
     (num_docs self) (max_shingle self) (next_prime self) (coeff_a self) b.

(** The [while] loop of [_pick_random_coeffs]; [fuel] bounds the number of
    iterations the model follows. *)
Fixpoint pick_loop (fuel : nat) (rng : nat → Z) (self : t)
    (rand_set : gset Z) (cursor : nat) : result (gset Z * nat) :=
  if bool_decide (Z.of_nat (size rand_set) < num_hashes self) then
    match fuel with
    | O => OutOfFuel
    | S fuel' =>
        '(rand_index, cursor') ← Py.randint rng 0 (max_shingle self) cursor;
        if bool_decide (rand_index ∉ rand_set)
        then pick_loop fuel' rng self ({[rand_index]} ∪ rand_set) cursor'
        else pick_loop fuel' rng self rand_set cursor'
    end
  else Ok (rand_set, cursor).

(** [_pick_random_coeffs(self)]; returns the pool and the generator state. *)
Definition _pick_random_coeffs (fuel : nat) (rng : nat → Z) (self : t)
    (cursor : nat) : result (list Z * nat) :=
  '(rand_set, cursor') ← pick_loop fuel rng self ∅ cursor;
  Ok (elements rand_set, cursor').

(** [LexicalProximityAlgorithm(docs_as_sets, num_hashes, similarity_threshold)];
    the coefficient attributes do not exist before they are assigned and are
    shown empty until then. *)
Definition __init__ (fuel : nat) (rng : nat → Z)
    (docs_as_sets : Py.dict Py.pyset) (num_hashes : Z)
    (similarity_threshold : Q) : result t :=
  let self :=
    mk docs_as_sets num_hashes similarity_threshold (Py.len docs_as_sets)
       (2 ^ 32 - 1) 4294967311 [] [] in
  '(a, cursor) ← _pick_random_coeffs fuel rng self 0%nat;
  let self := with_coeff_a self a in
  '(b, cursor) ← _pick_random_coeffs fuel rng self cursor;
  let self := with_coeff_b self b in
  Ok self.

(** Lines 76-80: the minimum hash of one document under hash function [i]. *)
Definition min_hash_of (self : t) (i : Z) (shingleIDSet : Py.pyset)
  : result Z :=
  for_in shingleIDSet
    (λ shingleID min_hash,
       a ← Py.getitem (coeff_a self) i;
       b ← Py.getitem (coeff_b self) i;
       hash_code ← Py.mod_ (a * shingleID + b) (next_prime self);
       Ok (if hash_code <? min_hash then hash_code else min_hash))
    (next_prime self + 1).

(** Lines 74-81: the signature of one document. *)
Definition signature_of (self : t) (shingleIDSet : Py.pyset)
  : result (list Z) :=
  for_in (Py.range 0 (num_hashes self))
    (λ i signature,
       min_hash ← min_hash_of self i shingleIDSet;
       Ok (signature ++ [min_hash]))
    [].

(** [generate_minhash_signatures(self)] *)
Definition generate_minhash_signatures (self : t) : result (list (list Z)) :=
  for_in (Py.keys (docs_as_sets self))
    (λ doc_id signatures,
       shingleIDSet ← Py.dict_getitem (docs_as_sets self) doc_id;
       signature ← signature_of self shingleIDSet;
       Ok (signatures ++ [signature]))
    [].

(** Lines 98-101: the fraction of positions at which two signatures agree. *)
Definition estimated_similarity (self : t) (sig1 sig2 : list Z) : result Q :=
  count ← for_in (Py.range 0 (num_hashes self))
             (λ k count,
                x ← Py.getitem sig1 k;
                y ← Py.getitem sig2 k;
                Ok (count + (if bool_decide (x = y) then 1 else 0)))
             0;
  Py.truediv count (num_hashes self).

(** [calculate_similarities(self, signatures)] *)
Definition calculate_similarities (self : t) (signatures : list (list Z))
  : result (list (Z * Z * Q)) :=
  for_in (Py.range 0 (num_docs self))
    (λ i similarities,
       sig1 ← Py.getitem signatures i;
       for_in (Py.range (i + 1) (num_docs self))
         (λ j similarities,
            sig2 ← Py.getitem signatures j;
            sim ← estimated_similarity self sig1 sig2;
            Ok (similarities ++ [(i, j, sim)]))
         similarities)
    [].

End LexicalProximityAlgorithm.

(** [main.py], from the shingle sets on: construct, sign, compare. *)
Definition main (fuel : nat) (rng : nat → Z) (docs_as_sets : Py.dict Py.pyset)
  : result (list (Z * Z * Q)) :=
  algorithm ←
    LexicalProximityAlgorithm.__init__ fuel rng docs_as_sets 100 (1 # 2)%Q;
  signatures ← LexicalProximityAlgorithm.generate_minhash_signatures algorithm;
  LexicalProximityAlgorithm.calculate_similarities algorithm signatures.

(** The code points of a string literal. *)
Definition ascii_text (s : string) : Py.str :=
  (λ c, Z.of_nat (Ascii.nat_of_ascii c)) <$> String.list_ascii_of_string s.

(** ** Notions used to state the properties *)

(** A text is encodable when it holds no lone surrogate, the only code points
    UTF-8 cannot represent; every text decoded from a UTF-8 file is. *)
Definition encodable (text : Py.str) : bool :=
  forallb (λ c, negb (Py.is_surrogate c)) text.

Definition wellformed (c : Z) : Prop := Py.is_surrogate c = false.

Definition word_count (text : Py.str) : Z := Py.len (Py.split text).

(** The universal hash [h(s) = (a*s + b) mod p]. *)
Definition hash_value (a b p s : Z) : Z := (a * s + b) `mod` p.

(** Start from [start] and let each shingle's hash replace the value when it
    is smaller. *)
Definition running_minimum (h : Z → Z) (start : Z) (shingles : Py.pyset) : Z :=
  fold_left (λ m s, if h s <? m then h s else m) shingles start.

(** The hash-function family of a constructed object: the modulus assigned by
    [__init__] and one coefficient of each pool per hash function. *)
Definition hash_family_ok (self : LexicalProximityAlgorithm.t) : Prop :=
  LexicalProximityAlgorithm.next_prime self = 4294967311
  ∧ Py.len (LexicalProximityAlgorithm.coeff_a self)
    = LexicalProximityAlgorithm.num_hashes self
  ∧ Py.len (LexicalProximityAlgorithm.coeff_b self)
    = LexicalProximityAlgorithm.num_hashes self.

(** The value of slot [i] of the signature of a shingle set. *)
Definition slot_value (self : LexicalProximityAlgorithm.t)
    (shingles : Py.pyset) (i : nat) : Z :=
  running_minimum
    (hash_value (LexicalProximityAlgorithm.coeff_a self !!! i)
                (LexicalProximityAlgorithm.coeff_b self !!! i)
                (LexicalProximityAlgorithm.next_prime self))
    (LexicalProximityAlgorithm.next_prime self + 1) shingles.

Definition signature_value (self : LexicalProximityAlgorithm.t)
    (shingles : Py.pyset) : list Z :=
  slot_value self shingles
    <$> seq 0 (Z.to_nat (LexicalProximityAlgorithm.num_hashes self)).

(** The value stored under a key, empty for a key the dictionary lacks. *)
Definition shingles_of (d : Py.dict Py.pyset) (k : Z) : Py.pyset :=
  match Py.dict_getitem d k with Ok v => v | _ => [] end.

(** [v] is the least of the values [h s] for [s] in the set, or the sentinel
    when the set is empty. *)
Definition minimum_or_sentinel (h : Z → Z) (sentinel : Z) (shingles : Py.pyset)
    (v : Z) : Prop :=
  (shingles = [] → v = sentinel)
  ∧ (shingles ≠ [] → ∃ s, s ∈ shingles ∧ v = h s)
  ∧ (∀ s, s ∈ shingles → v ≤ h s).

(** The positions below [n] at which two signatures agree, and their share
    of [numHashes] positions. *)
Definition agreeing_positions (n : nat) (x y : list Z) : list nat :=
  filter (λ k, x !! k = y !! k) (seq 0 n).

Definition agreement (numHashes : Z) (x y : list Z) : Q :=
  Qred (Qmake (Py.len (agreeing_positions (Z.to_nat numHashes) x y))
              (Z.to_pos numHashes)).

(** One triple per pair of positions [i < j < n], in the order of the two
    nested loops. *)
Definition similarity_pairs (numHashes : Z) (signatures : list (list Z))
    (n : Z) : list (Z * Z * Q) :=
  i ← Py.range 0 n;
  (λ j, (i, j, agreement numHashes (signatures !!! Z.to_nat i)
                                   (signatures !!! Z.to_nat j)))
    <$> Py.range (i + 1) n.

(** The values the next [n] calls of [random.randint(0, max_shingle)] return
    when the generator has been used [cursor] times. *)
Definition draws (rng : nat → Z) (max_shingle : Z) (cursor n : nat) : list Z :=
  (λ c, 0 + rng c `mod` (max_shingle - 0 + 1)) <$> seq cursor n.

(** A call fails when it raises. *)
Definition fails {A : Type} (r : result A) : Prop := ∃ e, r = Raise e.

(** A small corpus, and an object over it with three hash functions. *)
Definition example_docs : Py.dict Py.pyset :=
  [(1, [1; 2; 3; 4]); (2, [4; 3; 2; 1]); (3, [7; 8]); (4, [])].

Definition example_algorithm : LexicalProximityAlgorithm.t :=
  LexicalProximityAlgorithm.mk example_docs 3 (1 # 2) 4 (2 ^ 32 - 1) 4294967311
    [1013916571; 12345; 2654448106] [2027820797; 387289262; 3668352332].

(** The object under construction when [__init__] is asked for one hash
    function more than there are values in [0, 2^32 - 1]. *)
Definition oversized_request : LexicalProximityAlgorithm.t :=
  LexicalProximityAlgorithm.mk [] (2 ^ 32 + 1) (1 # 2) 0 (2 ^ 32 - 1)
    4294967311 [] [].

Definition example_loader : DataLoader.t :=
  DataLoader.mk (ascii_text "corpus") 0 [] 3.

Definition example_text : Py.str :=
  ascii_text "the cat sat on the mat the cat sat".

(** The shingle of the window of [k] words that starts at word [i]. *)
Definition window_hash (k : Z) (text : Py.str) (i : Z) : Z :=
  Z.land
    (Py.crc32
       match Py.encode_utf8
               (Py.join [0x20] (Py.slice (Py.split text) i (i + k))) with
       | Ok encoded => encoded
       | _ => []
       end)
    0xffffffff.

(** [text.isascii()] *)
Definition isascii (text : Py.str) : bool := forallb (λ c, c <? 0x80) text.

(** The names of a listing that [load_documents] opens. *)
Definition txt_names (filenames : list Py.str) : list Py.str :=
  filter (λ f, Py.endswith f [0x2E; 0x74; 0x78; 0x74] = true) filenames.

(** A directory of three names: two readable text files and one other file
    that cannot be read. *)
Definition example_fs : Py.filesystem :=
  Py.mk_filesystem
    (λ _, inr [ascii_text "a.txt"; ascii_text "notes.md"; ascii_text "c.txt"])
    (λ _ filename,
       if bool_decide (filename = ascii_text "a.txt")
       then inr (ascii_text "the cat sat")
       else if bool_decide (filename = ascii_text "c.txt")
            then inr (ascii_text "The cat, sat!")
            else inl Py.OSError).

(** The same directory with an unreadable text file listed last. *)
Definition broken_fs : Py.filesystem :=
  Py.mk_filesystem
    (λ _, inr [ascii_text "a.txt"; ascii_text "notes.md"; ascii_text "c.txt";
               ascii_text "z.txt"])
    (Py.read_text example_fs).

(** The loader after [n] more documents, with shingle sets [sets], have been
    stored under the ids that follow its counter. *)
Definition loaded (self : DataLoader.t) (n : Z) (sets : list Py.pyset)
  : DataLoader.t :=
  DataLoader.mk (DataLoader.directory self) (DataLoader.doc_counter self + n)
    (DataLoader.docs_as_sets self
     ++ zip (seqZ (DataLoader.doc_counter self + 1) n) sets)
    (DataLoader.shingle_size self).

(** What [DataLoader("corpus", 2)] returns. *)
Definition new_loader : DataLoader.t :=
  DataLoader.mk (ascii_text "corpus") 0 [] 2.

Definition identity_lower (s : Py.str) (i : nat) : Py.str := [s !!! i].

(** A corpus in which the third document's shingles are those of the first
    two together, and an object over it with three hash functions. *)
Definition union_docs : Py.dict Py.pyset :=
  [(1, [1; 2; 3]); (2, [3; 4; 5]); (3, [5; 1; 4; 2; 3])].

Definition union_algorithm : LexicalProximityAlgorithm.t :=
  LexicalProximityAlgorithm.mk union_docs 3 (1 # 2) 3 (2 ^ 32 - 1) 4294967311
    [1013916571; 12345; 2654448106] [2027820797; 387289262; 3668352332].

(** * Properties *)

(** ** Loops *)

(** A loop whose body never raises is a left fold. *)
Lemma for_in_pure {A S : Type} (xs : list A) (body : A → S → result S)
    (step : S → A → S) (s : S) :
  (∀ x s, x ∈ xs → body x s = Ok (step s x)) →
  for_in xs body s = Ok (fold_left step xs s).
Proof.
  revert s. induction xs as [|x xs IH]; intros s Hbody; simpl; [done|].
  rewrite Hbody by left. simpl. apply IH.
  intros y s' Hy. apply Hbody. by right.
Qed.

(** A loop that appends one computed item per iteration collects the items. *)
Lemma for_in_collect {A B : Type} (xs : list A)
    (body : A → list B → result (list B)) (f : A → B) (acc : list B) :
  (∀ x acc, x ∈ xs → body x acc = Ok (acc ++ [f x])) →
  for_in xs body acc = Ok (acc ++ (f <$> xs)).
Proof.
  revert acc. induction xs as [|x xs IH]; intros acc Hg; simpl.
  - by rewrite app_nil_r.
  - rewrite Hg by left. simpl. rewrite IH.
    + by rewrite <- app_assoc.
    + intros y acc' Hy. apply Hg. by right.
Qed.

(** A loop that appends a computed batch per iteration concatenates them. *)
Lemma for_in_extend {A B : Type} (xs : list A)
    (body : A → list B → result (list B)) (f : A → list B) (acc : list B) :
  (∀ x acc, x ∈ xs → body x acc = Ok (acc ++ f x)) →
  for_in xs body acc = Ok (acc ++ (xs ≫= f)).
Proof.
  revert acc. induction xs as [|x xs IH]; intros acc Hg; simpl.
  - by rewrite app_nil_r.
  - rewrite Hg by left. simpl. rewrite IH.
    + by rewrite <- app_assoc.
    + intros y acc' Hy. apply Hg. by right.
Qed.

Lemma getitem_nat {A : Type} (l : list A) (n : nat) (x : A) :
  l !! n = Some x → Py.getitem l (Z.of_nat n) = Ok x.
Proof.
  intros Hx. pose proof (lookup_lt_Some _ _ _ Hx) as Hlt.
  unfold Py.getitem, Py.len.
  replace (Z.of_nat n <? 0) with false by lia.
  replace (0 <=? Z.of_nat n) with true by lia.
  replace (Z.of_nat n <? Z.of_nat (length l)) with true by lia.
  simpl. by rewrite Nat2Z.id, Hx.
Qed.

Lemma getitem_Z {A : Type} `{!Inhabited A} (l : list A) (i : Z) :
  0 ≤ i < Py.len l → Py.getitem l i = Ok (l !!! Z.to_nat i).
Proof.
  intros Hi. unfold Py.len in Hi. rewrite <- (Z2Nat.id i) at 1 by lia.
  apply getitem_nat, list_lookup_lookup_total_lt. lia.
Qed.

Lemma elem_of_range (lo hi k : Z) : k ∈ Py.range lo hi ↔ lo ≤ k < hi.
Proof. unfold Py.range. rewrite elem_of_seqZ. lia. Qed.

Lemma length_range (lo hi : Z) :
  length (Py.range lo hi) = Z.to_nat (hi - lo).
Proof. unfold Py.range. apply length_seqZ. Qed.

Lemma range_from_zero (n : Z) :
  Py.range 0 n = Z.of_nat <$> seq 0 (Z.to_nat n).
Proof.
  unfold Py.range, seqZ. rewrite Z.sub_0_r.
  apply list_fmap_ext. intros _ i _. lia.
Qed.

(** ** The shingle extractor *)

Lemma encodable_Forall (text : Py.str) :
  encodable text = true ↔ Forall wellformed text.
Proof.
  unfold encodable, wellformed. induction text as [|c text IH]; simpl.
  - split; [constructor|done].
  - rewrite andb_true_iff, negb_true_iff, IH, Forall_cons. tauto.
Qed.

Lemma encode_char_wellformed (c : Z) :
  wellformed c → ∃ b, Py.encode_char c = Ok b.
Proof.
  unfold wellformed, Py.encode_char. intros ->.
  repeat case_match; eauto.
Qed.

Lemma encode_utf8_wellformed (s : Py.str) :
  Forall wellformed s → ∃ b, Py.encode_utf8 s = Ok b.
Proof.
  induction 1 as [|c s Hc _ [bs IH]]; simpl; [eauto|].
  destruct (encode_char_wellformed c Hc) as [b ->]. rewrite IH. simpl. eauto.
Qed.

Lemma split_from_wellformed (text word : Py.str) :
  Forall wellformed text → Forall wellformed word →
  Forall (Forall wellformed) (Py.split_from text word).
Proof.
  intros Htext. revert word.
  induction Htext as [|c text Hc _ IH]; intros word Hword; simpl.
  - destruct word; [constructor|]. constructor; [done|constructor].
  - destruct (Py.isspace c).
    + destruct word; [by apply IH|]. constructor; [done|by apply IH].
    + apply IH. apply Forall_app. split; [done|by constructor].
Qed.

Lemma join_wellformed (sep : Py.str) (words : list Py.str) :
  Forall wellformed sep → Forall (Forall wellformed) words →
  Forall wellformed (Py.join sep words).
Proof.
  intros Hsep. induction 1 as [|w ws Hw Hws IH]; simpl; [constructor|].
  destruct ws; [done|]. rewrite !Forall_app. auto.
Qed.

Lemma slice_Forall {A : Type} (P : A → Prop) (l : list A) (lo hi : Z) :
  Forall P l → Forall P (Py.slice l lo hi).
Proof. intros Hl. unfold Py.slice. by apply Forall_take, Forall_drop. Qed.

(** Every window of an encodable text is encodable. *)
Lemma window_encodes (text : Py.str) (i k : Z) :
  encodable text = true →
  ∃ b, Py.encode_utf8 (Py.join [0x20] (Py.slice (Py.split text) i (i + k)))
       = Ok b.
Proof.
  intros Htext%encodable_Forall. apply encode_utf8_wellformed.
  apply join_wellformed; [by repeat constructor|].
  apply slice_Forall. apply split_from_wellformed; [done|constructor].
Qed.

Lemma set_add_length (x : Z) (s : Py.pyset) :
  (length (Py.set_add x s) ≤ S (length s))%nat.
Proof.
  unfold Py.set_add. case_bool_decide; [lia|]. rewrite length_app. simpl. lia.
Qed.

Lemma set_add_NoDup (x : Z) (s : Py.pyset) :
  NoDup s → NoDup (Py.set_add x s).
Proof.
  intros Hs. unfold Py.set_add. case_bool_decide; [done|].
  apply NoDup_app. split_and!; [done| |apply NoDup_singleton].
  intros y Hy ->%list_elem_of_singleton. done.
Qed.

Lemma add_all_length {A : Type} (f : A → Z) (xs : list A) (s : Py.pyset) :
  (length (fold_left (λ s x, Py.set_add (f x) s) xs s)
   ≤ length s + length xs)%nat.
Proof.
  revert s. induction xs as [|x xs IH]; intros s; simpl; [lia|].
  etrans; [apply IH|]. pose proof (set_add_length (f x) s). lia.
Qed.

Lemma add_all_NoDup {A : Type} (f : A → Z) (xs : list A) (s : Py.pyset) :
  NoDup s → NoDup (fold_left (λ s x, Py.set_add (f x) s) xs s).
Proof.
  revert s. induction xs as [|x xs IH]; intros s Hs; simpl; [done|].
  by apply IH, set_add_NoDup.
Qed.

(** With fewer words than the window size the loop body never runs, whatever
    the text holds. *)
Lemma generate_shingles_short (self : DataLoader.t) (text : Py.str) :
  word_count text < DataLoader.shingle_size self →
  DataLoader.generate_shingles self text = Ok [].
Proof.
  intros Hshort. unfold DataLoader.generate_shingles, Py.range.
  unfold word_count in Hshort. by rewrite seqZ_nil by lia.
Qed.

(** C6. For every text (free of lone surrogates, so that its windows can be
    encoded) and every window size k -- positive or not -- the extractor
    returns a duplicate-free shingle set of size at most
    max(0, wordCount - k + 1); with fewer than k words the set is empty and
    nothing is raised. *)
Theorem generate_shingles_size (self : DataLoader.t) (text : Py.str) :
  encodable text = true →
  ∃ shingles : Py.pyset,
    DataLoader.generate_shingles self text = Ok shingles
    ∧ Py.len shingles
      ≤ Z.max 0 (word_count text - DataLoader.shingle_size self + 1)
    ∧ NoDup shingles
    ∧ (word_count text < DataLoader.shingle_size self → shingles = []).
Proof.
  intros Htext.
  set (k := DataLoader.shingle_size self).
  set (window i := Py.join [0x20] (Py.slice (Py.split text) i (i + k))).
  set (encoded i :=
         match Py.encode_utf8 (window i) with Ok b => b | _ => [] end).
  set (shingle i := Z.land (Py.crc32 (encoded i)) 0xffffffff).
  set (indices := Py.range 0 (Py.len (Py.split text) - k + 1)).
  assert (DataLoader.generate_shingles self text
          = Ok (fold_left (λ s i, Py.set_add (shingle i) s) indices []))
    as Hrun.
  { unfold DataLoader.generate_shingles. apply for_in_pure.
    intros i s _. fold k. fold (window i).
    unfold shingle, encoded.
    destruct (window_encodes text i k Htext) as [b Hb].
    fold (window i) in Hb. by rewrite Hb. }
  eexists. split; [exact Hrun|]. split_and!.
  - pose proof (add_all_length shingle indices []) as Hlen.
    unfold indices in Hlen at 2. rewrite length_range in Hlen.
    unfold word_count, Py.len in *. simpl in Hlen. fold k. lia.
  - apply add_all_NoDup, NoDup_nil_2.
  - intros Hshort. apply generate_shingles_short in Hshort.
    rewrite Hrun in Hshort. by injection Hshort.
Qed.

Lemma generate_shingles_size_witness :
  encodable example_text = true
  ∧ ∃ shingles : Py.pyset,
      DataLoader.generate_shingles example_loader example_text = Ok shingles
      ∧ Py.len shingles
        ≤ Z.max 0 (word_count example_text
                   - DataLoader.shingle_size example_loader + 1)
      ∧ NoDup shingles
      ∧ (word_count example_text < DataLoader.shingle_size example_loader →
         shingles = []).
Proof.
  split; [reflexivity|]. apply generate_shingles_size. reflexivity.
Defined.

(** ** The signature generator *)

Import LexicalProximityAlgorithm.

Lemma running_minimum_spec (h : Z → Z) (start : Z) (shingles : Py.pyset) :
  running_minimum h start shingles ≤ start
  ∧ (∀ s, s ∈ shingles → running_minimum h start shingles ≤ h s)
  ∧ (running_minimum h start shingles = start
     ∨ ∃ s, s ∈ shingles ∧ running_minimum h start shingles = h s).
Proof.
  unfold running_minimum. revert start.
  induction shingles as [|s0 shingles IH]; intros start; simpl.
  - split_and!; [lia| |by left]. intros s Hs. by apply elem_of_nil in Hs.
  - destruct (IH (if h s0 <? start then h s0 else start))
      as (Hle & Hlow & Hin).
    split_and!.
    + case_match; lia.
    + intros s [->|Hs]%elem_of_cons; [case_match; lia|by apply Hlow].
    + destruct Hin as [Hin|(s & Hs & Hin)].
      * case_match; [right; exists s0|left]; (split || idtac);
          try apply elem_of_cons; auto.
      * right. exists s. split; [by right|done].
Qed.

(** The running minimum depends on the members of the set only, not on the
    order in which iteration delivers them. *)
Lemma running_minimum_set_eq (h : Z → Z) (start : Z) (s1 s2 : Py.pyset) :
  Py.set_eq s1 s2 → running_minimum h start s1 = running_minimum h start s2.
Proof.
  intros Heq.
  destruct (running_minimum_spec h start s1) as (Hle1 & Hlow1 & Hin1).
  destruct (running_minimum_spec h start s2) as (Hle2 & Hlow2 & Hin2).
  apply Z.le_antisymm.
  - destruct Hin2 as [->|(s & Hs & ->)]; [done|]. by apply Hlow1, Heq.
  - destruct Hin1 as [->|(s & Hs & ->)]; [done|]. by apply Hlow2, Heq.
Qed.

Lemma hash_value_bound (a b s : Z) :
  0 ≤ hash_value a b 4294967311 s < 4294967311.
Proof. unfold hash_value. apply Z.mod_pos_bound. lia. Qed.

Lemma min_hash_of_value (self : t) (shingles : Py.pyset) (i : nat) :
  hash_family_ok self →
  (Z.of_nat i < num_hashes self) →
  min_hash_of self (Z.of_nat i) shingles = Ok (slot_value self shingles i).
Proof.
  intros (Hp & Ha & Hb) Hi. unfold min_hash_of, slot_value, running_minimum.
  apply for_in_pure. intros s m _.
  unfold Py.len in Ha, Hb.
  rewrite (getitem_nat (coeff_a self) i (coeff_a self !!! i))
    by (apply list_lookup_lookup_total_lt; lia).
  simpl.
  rewrite (getitem_nat (coeff_b self) i (coeff_b self !!! i))
    by (apply list_lookup_lookup_total_lt; lia).
  simpl. unfold Py.mod_. rewrite Hp. done.
Qed.

Lemma signature_of_value (self : t) (shingles : Py.pyset) :
  hash_family_ok self →
  signature_of self shingles = Ok (signature_value self shingles).
Proof.
  intros Hok. unfold signature_of, signature_value.
  rewrite range_from_zero.
  rewrite (for_in_collect _ _ (λ i, slot_value self shingles (Z.to_nat i))).
  - f_equal. simpl. rewrite <- list_fmap_compose.
    apply list_fmap_ext. intros _ i _. simpl. by rewrite Nat2Z.id.
  - intros i signature (n & -> & Hn%elem_of_seq)%list_elem_of_fmap.
    rewrite min_hash_of_value by (done || lia). simpl. by rewrite Nat2Z.id.
Qed.

Lemma dict_getitem_keys {V : Type} (d : Py.dict V) (k : Z) :
  k ∈ Py.keys d → ∃ v, Py.dict_getitem d k = Ok v.
Proof.
  unfold Py.keys. induction d as [|[k' v] d IH]; simpl.
  - intros Hk. by apply elem_of_nil in Hk.
  - intros Hk. case_bool_decide; [eauto|].
    apply elem_of_cons in Hk as [->|Hk]; [done|auto].
Qed.

Lemma generate_minhash_signatures_value (self : t) :
  hash_family_ok self →
  generate_minhash_signatures self
  = Ok ((λ k, signature_value self (shingles_of (docs_as_sets self) k))
          <$> Py.keys (docs_as_sets self)).
Proof.
  intros Hok. unfold generate_minhash_signatures.
  rewrite (for_in_collect _ _
             (λ k, signature_value self (shingles_of (docs_as_sets self) k)));
    [done|].
  intros k signatures Hk. unfold shingles_of.
  destruct (dict_getitem_keys _ _ Hk) as [v ->]. simpl.
  by rewrite signature_of_value.
Qed.

(** The signature the generator stores at the position of a document. *)
Lemma signature_at (self : t) (n : nat) (doc_id : Z) (shingles : Py.pyset) :
  hash_family_ok self →
  Py.keys (docs_as_sets self) !! n = Some doc_id →
  Py.dict_getitem (docs_as_sets self) doc_id = Ok shingles →
  ∃ signatures,
    generate_minhash_signatures self = Ok signatures
    ∧ length signatures = length (docs_as_sets self)
    ∧ signatures !! n = Some (signature_value self shingles).
Proof.
  intros Hok Hkey Hdoc. eexists. split_and!.
  - by apply generate_minhash_signatures_value.
  - unfold Py.keys. by rewrite !length_fmap.
  - rewrite list_lookup_fmap, Hkey. simpl. unfold shingles_of. by rewrite Hdoc.
Qed.

Lemma signature_value_length (self : t) (shingles : Py.pyset) :
  hash_family_ok self → Py.len (signature_value self shingles) = num_hashes self.
Proof.
  intros (_ & Ha & _). unfold signature_value, Py.len in *.
  rewrite length_fmap, length_seq. lia.
Qed.

Lemma signature_value_lookup (self : t) (shingles : Py.pyset) (i : nat) :
  (Z.of_nat i < num_hashes self) →
  signature_value self shingles !! i = Some (slot_value self shingles i).
Proof.
  intros Hi. unfold signature_value. rewrite list_lookup_fmap.
  rewrite lookup_seq_lt by lia. done.
Qed.

Lemma signature_value_empty (self : t) :
  signature_value self []
  = replicate (Z.to_nat (num_hashes self)) (next_prime self + 1).
Proof.
  unfold signature_value. generalize 0%nat.
  induction (Z.to_nat (num_hashes self)) as [|len IH]; intros start; simpl;
    [done|].
  by rewrite IH.
Qed.

(** A slot fed by at least one shingle holds a value reduced mod p. *)
Lemma slot_value_below (self : t) (shingles : Py.pyset) (i : nat) :
  hash_family_ok self → shingles ≠ [] →
  0 ≤ slot_value self shingles i < 4294967311.
Proof.
  intros (Hp & _) Hne. unfold slot_value. rewrite Hp.
  set (h := hash_value _ _ _).
  destruct (running_minimum_spec h (4294967311 + 1) shingles)
    as (Hle & Hlow & [Hin|(s & Hs & ->)]).
  - destruct shingles as [|s shingles]; [done|].
    pose proof (Hlow s ltac:(left)) as Hs.
    pose proof (hash_value_bound (coeff_a self !!! i) (coeff_b self !!! i) s)
      as Hbound.
    fold h in Hbound. lia.
  - apply hash_value_bound.
Qed.

(** C1. The signature of every document is computed slot by slot: slot i
    starts at the sentinel p+1 (p = 4294967311) and every shingle s of the
    document replaces it by (a_i*s + b_i) mod p when that is smaller, so the
    slot ends as the minimum of h_i over the shingle set, or as the sentinel
    when the set is empty. *)
Theorem minhash_slot_is_minimum (self : t) (n : nat) (doc_id : Z)
    (shingles : Py.pyset) (i : nat) (a b : Z) :
  hash_family_ok self →
  Py.keys (docs_as_sets self) !! n = Some doc_id →
  Py.dict_getitem (docs_as_sets self) doc_id = Ok shingles →
  coeff_a self !! i = Some a →
  coeff_b self !! i = Some b →
  ∃ signatures signature v,
    generate_minhash_signatures self = Ok signatures
    ∧ signatures !! n = Some signature
    ∧ signature !! i = Some v
    ∧ v = running_minimum (hash_value a b 4294967311) (4294967311 + 1) shingles
    ∧ minimum_or_sentinel (hash_value a b 4294967311) (4294967311 + 1)
        shingles v.
Proof.
  intros Hok Hkey Hdoc Ha Hb.
  destruct (signature_at self n doc_id shingles Hok Hkey Hdoc)
    as (signatures & Hrun & _ & Hsig).
  pose proof Hok as (Hp & Hlen & _).
  pose proof (lookup_lt_Some _ _ _ Ha) as Hi. unfold Py.len in Hlen.
  exists signatures, (signature_value self shingles),
    (slot_value self shingles i).
  split_and!; [done|done|apply signature_value_lookup; lia| |].
  - unfold slot_value.
    by rewrite (list_lookup_total_correct _ _ _ Ha),
      (list_lookup_total_correct _ _ _ Hb), Hp.
  - unfold slot_value.
    rewrite (list_lookup_total_correct _ _ _ Ha),
      (list_lookup_total_correct _ _ _ Hb), Hp.
    set (h := hash_value a b 4294967311).
    destruct (running_minimum_spec h (4294967311 + 1) shingles)
      as (Hle & Hlow & Hin).
    split_and!; [by intros ->|  |done].
    intros Hne. destruct Hin as [Hin|Hin]; [|done].
    destruct shingles as [|s shingles]; [done|].
    pose proof (Hlow s ltac:(left)) as Hs.
    pose proof (hash_value_bound a b s) as Hbound. fold h in Hbound. lia.
Qed.

Lemma minhash_slot_is_minimum_witness :
  ∃ signatures signature v,
    generate_minhash_signatures example_algorithm = Ok signatures
    ∧ signatures !! 0%nat = Some signature
    ∧ signature !! 0%nat = Some v
    ∧ v = running_minimum (hash_value 1013916571 2027820797 4294967311)
            (4294967311 + 1) [1; 2; 3; 4]
    ∧ minimum_or_sentinel (hash_value 1013916571 2027820797 4294967311)
        (4294967311 + 1) [1; 2; 3; 4] v.
Proof.
  apply (minhash_slot_is_minimum example_algorithm 0 1 [1; 2; 3; 4] 0);
    [repeat split|..]; reflexivity.
Defined.

(** C3. For every document, the one with an empty shingle set included, the
    generated signature has exactly numHashes entries; for an empty shingle
    set every entry is the sentinel p+1. *)
Theorem signature_length (self : t) (n : nat) (doc_id : Z)
    (shingles : Py.pyset) :
  hash_family_ok self →
  Py.keys (docs_as_sets self) !! n = Some doc_id →
  Py.dict_getitem (docs_as_sets self) doc_id = Ok shingles →
  ∃ signatures signature,
    generate_minhash_signatures self = Ok signatures
    ∧ signatures !! n = Some signature
    ∧ Py.len signature = num_hashes self
    ∧ (shingles = [] →
       signature = replicate (Z.to_nat (num_hashes self)) (4294967311 + 1)).
Proof.
  intros Hok Hkey Hdoc.
  destruct (signature_at self n doc_id shingles Hok Hkey Hdoc)
    as (signatures & Hrun & _ & Hsig).
  exists signatures, (signature_value self shingles).
  split_and!; [done|done|by apply signature_value_length|].
  intros ->. destruct Hok as (Hp & _).
  by rewrite signature_value_empty, Hp.
Qed.

Lemma signature_length_witness :
  ∃ signatures signature,
    generate_minhash_signatures example_algorithm = Ok signatures
    ∧ signatures !! 3%nat = Some signature
    ∧ Py.len signature = num_hashes example_algorithm
    ∧ (@nil Z = [] →
       signature
       = replicate (Z.to_nat (num_hashes example_algorithm)) (4294967311 + 1)).
Proof.
  apply (signature_length example_algorithm 3 4 []);
    [repeat split|..]; reflexivity.
Defined.

(** C10. For a document with a non-empty shingle set every entry of its
    signature is below p = 4294967311; the signature has numHashes >= 1
    slots, and the sentinel p+1 appears in one of them exactly when the
    document's shingle set is empty (then in all of them), since every
    computed hash is reduced mod p. *)
Theorem sentinel_iff_empty (self : t) (n : nat) (doc_id : Z)
    (shingles : Py.pyset) :
  hash_family_ok self →
  0 < num_hashes self →
  Py.keys (docs_as_sets self) !! n = Some doc_id →
  Py.dict_getitem (docs_as_sets self) doc_id = Ok shingles →
  ∃ signatures signature,
    generate_minhash_signatures self = Ok signatures
    ∧ signatures !! n = Some signature
    ∧ Py.len signature = num_hashes self
    ∧ (shingles ≠ [] → ∀ v, v ∈ signature → 0 ≤ v < 4294967311)
    ∧ (∀ v, v ∈ signature → v = 4294967311 + 1 ↔ shingles = [])
    ∧ ((4294967311 + 1) ∈ signature ↔ shingles = []).
Proof.
  intros Hok Hpos Hkey Hdoc.
  destruct (signature_at self n doc_id shingles Hok Hkey Hdoc)
    as (signatures & Hrun & _ & Hsig).
  exists signatures, (signature_value self shingles).
  assert (∀ v, v ∈ signature_value self shingles →
            v = 4294967311 + 1 → shingles = []) as Hsentinel.
  { intros v Hv ->. destruct shingles as [|s shingles]; [done|].
    apply list_elem_of_fmap in Hv as (i & Hv & _).
    pose proof (slot_value_below self (s :: shingles) i Hok ltac:(done)).
    lia. }
  split_and!; [done|done|by apply signature_value_length| | |].
  - intros Hne v (i & -> & _)%list_elem_of_fmap.
    by apply slot_value_below.
  - intros v Hv. split; [by apply Hsentinel|].
    intros ->. destruct Hok as (Hp & _).
    rewrite signature_value_empty, Hp in Hv.
    by apply elem_of_replicate in Hv as [-> _].
  - split; [intros Hin; by apply (Hsentinel _ Hin)|].
    intros ->. destruct Hok as (Hp & _).
    rewrite signature_value_empty, Hp.
    apply elem_of_replicate. split; [done|lia].
Qed.

Lemma sentinel_iff_empty_witness :
  (∃ signatures signature,
     generate_minhash_signatures example_algorithm = Ok signatures
     ∧ signatures !! 2%nat = Some signature
     ∧ Py.len signature = num_hashes example_algorithm
     ∧ ([7; 8] ≠ [] → ∀ v, v ∈ signature → 0 ≤ v < 4294967311)
     ∧ (∀ v, v ∈ signature → v = 4294967311 + 1 ↔ [7; 8] = [])
     ∧ ((4294967311 + 1) ∈ signature ↔ [7; 8] = []))
  ∧ (∃ signatures signature,
       generate_minhash_signatures example_algorithm = Ok signatures
       ∧ signatures !! 3%nat = Some signature
       ∧ Py.len signature = num_hashes example_algorithm
       ∧ (@nil Z ≠ [] → ∀ v, v ∈ signature → 0 ≤ v < 4294967311)
       ∧ (∀ v, v ∈ signature → v = 4294967311 + 1 ↔ @nil Z = [])
       ∧ ((4294967311 + 1) ∈ signature ↔ @nil Z = [])).
Proof.
  split.
  - apply (sentinel_iff_empty example_algorithm 2 3 [7; 8]);
      [repeat split|..]; reflexivity.
  - apply (sentinel_iff_empty example_algorithm 3 4 []);
      [repeat split|..]; reflexivity.
Defined.

(** ** The pairwise similarity estimator *)

Lemma count_agreeing (x y : list Z) (ks : list nat) (c : Z) :
  (∀ k, k ∈ ks → (k < length x)%nat ∧ (k < length y)%nat) →
  for_in (Z.of_nat <$> ks)
    (λ k count,
       xk ← Py.getitem x k;
       yk ← Py.getitem y k;
       Ok (count + (if bool_decide (xk = yk) then 1 else 0)))
    c
  = Ok (c + Py.len (filter (λ k, x !! k = y !! k) ks)).
Proof.
  revert c. induction ks as [|k ks IH]; intros c Hks; simpl.
  - f_equal. unfold Py.len. simpl. lia.
  - destruct (Hks k ltac:(left)) as [Hx Hy].
    apply lookup_lt_is_Some_2 in Hx as [xk Hx].
    apply lookup_lt_is_Some_2 in Hy as [yk Hy].
    rewrite (getitem_nat x k xk Hx). simpl.
    rewrite (getitem_nat y k yk Hy). simpl.
    rewrite IH by (intros k' Hk'; apply Hks; by right).
    f_equal. rewrite filter_cons, Hx, Hy. unfold Py.len.
    case_bool_decide as Heq; case_decide as Heq'; simpl; try lia.
    + destruct Heq'. by rewrite Heq.
    + destruct Heq. by injection Heq'.
Qed.

Lemma truediv_positive (a b : Z) :
  0 < b → Py.truediv a b = Ok (Qred (Qmake a (Z.to_pos b))).
Proof.
  intros Hb. unfold Py.truediv.
  replace (b =? 0) with false by lia.
  by rewrite Z.sgn_pos, Z.abs_eq, Z.mul_1_r by lia.
Qed.

Lemma estimated_similarity_value (self : t) (x y : list Z) :
  0 < num_hashes self →
  Py.len x = num_hashes self →
  Py.len y = num_hashes self →
  estimated_similarity self x y = Ok (agreement (num_hashes self) x y).
Proof.
  intros Hpos Hx Hy. unfold estimated_similarity, agreement, Py.len in *.
  rewrite range_from_zero, count_agreeing.
  - simpl. rewrite truediv_positive by done. by rewrite Z.add_0_l.
  - intros k Hk%elem_of_seq. lia.
Qed.

Lemma agreeing_positions_sym (n : nat) (x y : list Z) :
  agreeing_positions n x y = agreeing_positions n y x.
Proof.
  unfold agreeing_positions. apply list_filter_iff. intros k. split; by intros ->.
Qed.

Lemma agreeing_positions_length (n : nat) (x y : list Z) :
  (length (agreeing_positions n x y) ≤ n)%nat.
Proof.
  unfold agreeing_positions.
  etrans; [apply length_filter|]. by rewrite length_seq.
Qed.

Lemma agreement_bounds (numHashes : Z) (x y : list Z) :
  0 < numHashes →
  Qle 0 (agreement numHashes x y) ∧ Qle (agreement numHashes x y) 1.
Proof.
  intros Hpos. unfold agreement.
  pose proof (agreeing_positions_length (Z.to_nat numHashes) x y) as Hlen.
  rewrite !Qred_correct. unfold Qle, Py.len. simpl.
  rewrite Z2Pos.id by done. lia.
Qed.

(** Two signatures that agree everywhere agree on the full share. *)
Lemma agreement_same (numHashes : Z) (x : list Z) :
  0 < numHashes → agreement numHashes x x = 1%Q.
Proof.
  intros Hpos. unfold agreement, agreeing_positions.
  assert (∀ ks : list nat, filter (λ k, x !! k = x !! k) ks = ks) as ->.
  { induction ks as [|k ks IH]; [done|].
    rewrite filter_cons, IH. by case_decide. }
  unfold Py.len. rewrite length_seq, Z2Nat.id by lia.
  change 1%Q with (Qred 1). apply Qred_complete.
  unfold Qeq. simpl. rewrite Z2Pos.id by done. lia.
Qed.

(** C4. For two signatures of length numHashes the estimated similarity does
    not depend on the order of the pair and lies in the closed interval
    from 0 to 1. *)
Theorem estimated_similarity_symmetric_bounded (self : t) (x y : list Z) :
  0 < num_hashes self →
  Py.len x = num_hashes self →
  Py.len y = num_hashes self →
  ∃ sim,
    estimated_similarity self x y = Ok sim
    ∧ estimated_similarity self y x = Ok sim
    ∧ Qle 0 sim ∧ Qle sim 1.
Proof.
  intros Hpos Hx Hy. exists (agreement (num_hashes self) x y).
  split_and!.
  - by apply estimated_similarity_value.
  - rewrite estimated_similarity_value by done.
    unfold agreement. by rewrite agreeing_positions_sym.
  - by apply agreement_bounds.
  - by apply agreement_bounds.
Qed.

Lemma estimated_similarity_symmetric_bounded_witness :
  ∃ sim,
    estimated_similarity example_algorithm [5; 6; 7] [5; 9; 7] = Ok sim
    ∧ estimated_similarity example_algorithm [5; 9; 7] [5; 6; 7] = Ok sim
    ∧ Qle 0 sim ∧ Qle sim 1.
Proof.
  apply (estimated_similarity_symmetric_bounded example_algorithm);
    reflexivity.
Defined.

Lemma calculate_similarities_value (self : t) (signatures : list (list Z)) :
  0 < num_hashes self →
  num_docs self = Py.len signatures →
  Forall (λ signature, Py.len signature = num_hashes self) signatures →
  calculate_similarities self signatures
  = Ok (similarity_pairs (num_hashes self) signatures (num_docs self)).
Proof.
  intros Hpos Hdocs Hlen. unfold calculate_similarities, similarity_pairs.
  assert (∀ i, 0 ≤ i < num_docs self →
            Py.len (signatures !!! Z.to_nat i) = num_hashes self) as Hsig.
  { intros i Hi. rewrite Forall_lookup in Hlen. apply (Hlen (Z.to_nat i)).
    apply list_lookup_lookup_total_lt. unfold Py.len in Hdocs. lia. }
  apply (for_in_extend _ _ _ []).
  intros i acc Hi%elem_of_range.
  rewrite getitem_Z by lia. simpl.
  apply for_in_collect. intros j acc' Hj%elem_of_range.
  rewrite getitem_Z by lia. simpl.
  rewrite estimated_similarity_value by (done || apply Hsig; lia). done.
Qed.

Lemma elem_of_similarity_pairs (numHashes : Z) (signatures : list (list Z))
    (n i j : Z) (sim : Q) :
  (i, j, sim) ∈ similarity_pairs numHashes signatures n
  ↔ 0 ≤ i < j ∧ j < n
    ∧ sim = agreement numHashes (signatures !!! Z.to_nat i)
                                (signatures !!! Z.to_nat j).
Proof.
  unfold similarity_pairs. rewrite list_elem_of_bind. split.
  - intros (i' & (j' & [= -> -> ->] & Hj%elem_of_range)%list_elem_of_fmap
               & Hi%elem_of_range).
    split_and!; (done || lia).
  - intros (Hi & Hj & ->). exists i. split.
    + apply list_elem_of_fmap. exists j. split; [done|].
      apply elem_of_range. lia.
    + apply elem_of_range. lia.
Qed.

Lemma fmap_bind_list {A B C : Type} (f : B → C) (g : A → list B)
    (l : list A) :
  f <$> (l ≫= g) = l ≫= (λ x, f <$> g x).
Proof.
  induction l as [|x l IH]; [done|].
  by rewrite !bind_cons, fmap_app, IH.
Qed.

Lemma similarity_pairs_NoDup (numHashes : Z) (signatures : list (list Z))
    (n : Z) :
  NoDup (fst <$> similarity_pairs numHashes signatures n).
Proof.
  unfold similarity_pairs. rewrite fmap_bind_list.
  apply NoDup_bind.
  - intros i1 i2 p _ _ Hp1 Hp2. simpl in Hp1, Hp2.
    apply list_elem_of_fmap in Hp1 as ([[i1' j1] q1] & -> & Hp1).
    apply list_elem_of_fmap in Hp1 as (? & [= -> -> ->] & _).
    apply list_elem_of_fmap in Hp2 as ([[i2' j2] q2] & Heq & Hp2).
    apply list_elem_of_fmap in Hp2 as (? & [= -> -> ->] & _).
    simpl in Heq. congruence.
  - intros i _. simpl. rewrite <- list_fmap_compose.
    apply NoDup_fmap_2; [|apply NoDup_seqZ].
    intros j1 j2 Heq. simpl in Heq. congruence.
  - apply NoDup_seqZ.
Qed.

(** C2. Given the signatures of the n documents, in order, the similarity
    calculation returns exactly one triple (i, j, sim) for every pair of
    positions i < j < n and nothing else; sim is the number of positions k
    below numHashes with signature[i][k] == signature[j][k], divided by
    numHashes; i and j are positions in the signature list. *)
Theorem calculate_similarities_pairs (self : t) (signatures : list (list Z)) :
  0 < num_hashes self →
  num_docs self = Py.len signatures →
  Forall (λ signature, Py.len signature = num_hashes self) signatures →
  ∃ similarities,
    calculate_similarities self signatures = Ok similarities
    ∧ (∀ i j sim,
         (i, j, sim) ∈ similarities
         ↔ 0 ≤ i < j ∧ j < Py.len signatures
           ∧ ∃ x y,
               signatures !! Z.to_nat i = Some x
               ∧ signatures !! Z.to_nat j = Some y
               ∧ sim = agreement (num_hashes self) x y)
    ∧ NoDup (fst <$> similarities).
Proof.
  intros Hpos Hdocs Hlen. eexists. split_and!.
  - by apply calculate_similarities_value.
  - intros i j sim. rewrite elem_of_similarity_pairs, Hdocs.
    split.
    + intros (Hi & Hj & ->). split_and!; [lia..|].
      eexists _, _. split_and!; [| |done];
        apply list_lookup_lookup_total_lt; unfold Py.len in Hj; lia.
    + intros (Hi & Hj & x & y & Hx & Hy & ->). split_and!; [lia..|].
      by rewrite (list_lookup_total_correct _ _ _ Hx),
        (list_lookup_total_correct _ _ _ Hy).
  - apply similarity_pairs_NoDup.
Qed.

Lemma calculate_similarities_pairs_witness :
  ∃ similarities,
    calculate_similarities example_algorithm
      [[7; 3; 9]; [7; 3; 9]; [5; 3; 7]; [1; 1; 1]] = Ok similarities
    ∧ (∀ i j sim,
         (i, j, sim) ∈ similarities
         ↔ 0 ≤ i < j ∧ j < 4
           ∧ ∃ x y,
               [[7; 3; 9]; [7; 3; 9]; [5; 3; 7]; [1; 1; 1]] !! Z.to_nat i
               = Some x
               ∧ [[7; 3; 9]; [7; 3; 9]; [5; 3; 7]; [1; 1; 1]] !! Z.to_nat j
                 = Some y
               ∧ sim = agreement 3 x y)
    ∧ NoDup (fst <$> similarities).
Proof.
  apply (calculate_similarities_pairs example_algorithm
           [[7; 3; 9]; [7; 3; 9]; [5; 3; 7]; [1; 1; 1]]);
    [reflexivity|reflexivity|repeat constructor].
Defined.

(** ** Signatures and similarities together *)

Lemma signature_value_set_eq (self : t) (s1 s2 : Py.pyset) :
  Py.set_eq s1 s2 → signature_value self s1 = signature_value self s2.
Proof.
  intros Heq. unfold signature_value. apply list_fmap_ext.
  intros _ i _. unfold slot_value. by apply running_minimum_set_eq.
Qed.

(** C5. Two documents whose shingle sets have the same members, in whatever
    order each set is enumerated, get estimated similarity exactly 1, for
    every number of hash functions and every choice of the coefficient
    lists a and b. *)
Theorem identical_sets_similarity_one (self : t) (i j : nat) (doc_i doc_j : Z)
    (shingles_i shingles_j : Py.pyset) :
  hash_family_ok self →
  0 < num_hashes self →
  num_docs self = Py.len (docs_as_sets self) →
  (i < j)%nat →
  Py.keys (docs_as_sets self) !! i = Some doc_i →
  Py.keys (docs_as_sets self) !! j = Some doc_j →
  Py.dict_getitem (docs_as_sets self) doc_i = Ok shingles_i →
  Py.dict_getitem (docs_as_sets self) doc_j = Ok shingles_j →
  Py.set_eq shingles_i shingles_j →
  ∃ signatures similarities,
    generate_minhash_signatures self = Ok signatures
    ∧ calculate_similarities self signatures = Ok similarities
    ∧ ∀ sim, (Z.of_nat i, Z.of_nat j, sim) ∈ similarities ↔ sim = 1%Q.
Proof.
  intros Hok Hpos Hdocs Hij Hki Hkj Hi Hj Heq.
  destruct (signature_at self i doc_i shingles_i Hok Hki Hi)
    as (signatures & Hrun & Hlen & Hsi).
  destruct (signature_at self j doc_j shingles_j Hok Hkj Hj)
    as (signatures' & Hrun' & _ & Hsj).
  rewrite Hrun in Hrun'. injection Hrun' as <-.
  exists signatures. eexists. split_and!; [done| |].
  - apply calculate_similarities_value; [done| |].
    + unfold Py.len in *. lia.
    + rewrite generate_minhash_signatures_value in Hrun by done.
      injection Hrun as <-. apply Forall_fmap, Forall_true.
      intros k. by apply signature_value_length.
  - intros sim. rewrite elem_of_similarity_pairs, !Nat2Z.id.
    rewrite (list_lookup_total_correct _ _ _ Hsi),
      (list_lookup_total_correct _ _ _ Hsj).
    rewrite (signature_value_set_eq self shingles_i shingles_j Heq).
    rewrite agreement_same by done.
    pose proof (lookup_lt_Some _ _ _ Hsj) as Hjn.
    unfold Py.len in Hdocs. split; [by intros (_ & _ & ->)|].
    intros ->. split_and!; (done || lia).
Qed.

Lemma identical_sets_similarity_one_witness :
  ∃ signatures similarities,
    generate_minhash_signatures example_algorithm = Ok signatures
    ∧ calculate_similarities example_algorithm signatures = Ok similarities
    ∧ ∀ sim, (Z.of_nat 0, Z.of_nat 1, sim) ∈ similarities ↔ sim = 1%Q.
Proof.
  apply (identical_sets_similarity_one example_algorithm 0 1 1 2
           [1; 2; 3; 4] [4; 3; 2; 1]);
    [repeat split|reflexivity|reflexivity|lia|reflexivity..|].
  intros x. rewrite !elem_of_cons, !elem_of_nil. tauto.
Defined.

(** ** The coefficient generator *)

Section Sampling.

Variable rng : nat → Z.
Variable self : t.
Hypothesis max_shingle_nonneg : 0 ≤ max_shingle self.

Lemma randint_value (cursor : nat) :
  Py.randint rng 0 (max_shingle self) cursor
  = Ok (0 + rng cursor `mod` (max_shingle self - 0 + 1), S cursor).
Proof. unfold Py.randint. by replace (_ <=? 0) with false by lia. Qed.

Lemma randint_in_range (cursor : nat) :
  0 ≤ 0 + rng cursor `mod` (max_shingle self - 0 + 1) ≤ max_shingle self.
Proof.
  pose proof (Z.mod_pos_bound (rng cursor) (max_shingle self - 0 + 1)). lia.
Qed.

Lemma size_add_fresh (x : Z) (rand_set : gset Z) :
  x ∉ rand_set → size ({[x]} ∪ rand_set) = S (size rand_set).
Proof.
  intros Hx. rewrite size_union by set_solver. by rewrite size_singleton.
Qed.

(** Whenever the loop exits, the set has grown to exactly the target size by
    in-range values, whatever number of draws was rejected on the way. *)
Lemma pick_loop_exact (fuel : nat) (rand_set rand_set' : gset Z)
    (cursor cursor' : nat) :
  pick_loop fuel rng self rand_set cursor = Ok (rand_set', cursor') →
  Z.of_nat (size rand_set) ≤ Z.max 0 (num_hashes self) →
  Z.of_nat (size rand_set') = Z.max 0 (num_hashes self)
  ∧ ∀ x, x ∈ rand_set' → x ∈ rand_set ∨ 0 ≤ x ≤ max_shingle self.
Proof.
  revert rand_set cursor.
  induction fuel as [|fuel IH]; intros rand_set cursor; simpl;
    case_bool_decide as Hsize; try done.
  - intros [= <- <-] Hle. split; [lia|auto].
  - rewrite randint_value. simpl. pose proof (randint_in_range cursor).
    case_bool_decide as Hfresh.
    + intros Hrun Hle. apply IH in Hrun as [Hsize' Hin].
      * split; [done|]. intros x Hx.
        destruct (Hin x Hx) as [[->%elem_of_singleton|?]%elem_of_union|?];
          auto.
      * rewrite size_add_fresh by done. lia.
    + intros Hrun Hle. by apply IH in Hrun.
  - intros [= <- <-] Hle. split; [lia|auto].
Qed.

(** The loop exits as soon as the values drawn so far, together with the set
    it started from, number the target. *)
Lemma pick_loop_returns (n fuel : nat) (rand_set : gset Z) (cursor : nat) :
  (n ≤ fuel)%nat →
  num_hashes self
  ≤ Z.of_nat (size (rand_set
                    ∪ list_to_set (draws rng (max_shingle self) cursor n))) →
  ∃ rand_set' cursor',
    pick_loop fuel rng self rand_set cursor = Ok (rand_set', cursor').
Proof.
  revert fuel rand_set cursor.
  induction n as [|n IH]; intros fuel rand_set cursor Hfuel Hdraws.
  - simpl in Hdraws. rewrite (right_id_L ∅ (∪)) in Hdraws.
    destruct fuel; simpl; case_bool_decide; (lia || eauto).
  - destruct fuel as [|fuel]; [lia|]. simpl.
    case_bool_decide as Hsize; [|eauto].
    rewrite randint_value. simpl.
    set (x := 0 + rng cursor `mod` (max_shingle self - 0 + 1)).
    assert (num_hashes self
            ≤ Z.of_nat
                (size ({[x]} ∪ rand_set
                       ∪ list_to_set
                           (draws rng (max_shingle self) (S cursor) n))))
      as Hdraws'.
    { etrans; [exact Hdraws|]. apply inj_le, subseteq_size.
      unfold draws. simpl. fold x. intros y. set_unfold. tauto. }
    case_bool_decide as Hfresh.
    + apply IH; [lia|done].
    + apply IH; [lia|].
      etrans; [exact Hdraws'|]. apply inj_le, subseteq_size.
      intros y. set_unfold. intros [[->|?]|?]; auto.
Qed.

(** A set of integers between 0 and [bound] has at most [bound + 1]
    members. *)
Lemma bounded_set_size (rand_set : gset Z) (bound : Z) :
  0 ≤ bound →
  (∀ x, x ∈ rand_set → 0 ≤ x ≤ bound) →
  Z.of_nat (size rand_set) ≤ bound + 1.
Proof.
  intros Hbound Hin.
  assert (rand_set ⊆ list_to_set (seqZ 0 (bound + 1))) as Hsub.
  { intros x Hx. apply elem_of_list_to_set, elem_of_seqZ.
    specialize (Hin x Hx). lia. }
  apply subseteq_size in Hsub.
  rewrite size_list_to_set, length_seqZ in Hsub by apply NoDup_seqZ. lia.
Qed.

(** With more values asked for than the range holds the loop never exits. *)
Lemma pick_loop_starves (fuel : nat) (rand_set : gset Z) (cursor : nat) :
  max_shingle self + 1 < num_hashes self →
  (∀ x, x ∈ rand_set → 0 ≤ x ≤ max_shingle self) →
  pick_loop fuel rng self rand_set cursor = OutOfFuel.
Proof.
  intros Hmany. revert rand_set cursor.
  induction fuel as [|fuel IH]; intros rand_set cursor Hin; simpl;
    pose proof (bounded_set_size rand_set _ max_shingle_nonneg Hin);
    (case_bool_decide; [|lia]); [done|].
  rewrite randint_value. simpl. pose proof (randint_in_range cursor).
  case_bool_decide; apply IH; [|done].
  intros x [->%elem_of_singleton|Hx]%elem_of_union; auto.
Qed.

End Sampling.

Lemma pick_random_coeffs_returns_exact (fuel : nat) (rng : nat → Z) (self : t)
    (cursor cursor' : nat) (pool : list Z) :
  0 ≤ max_shingle self →
  _pick_random_coeffs fuel rng self cursor = Ok (pool, cursor') →
  Py.len pool = Z.max 0 (num_hashes self)
  ∧ NoDup pool
  ∧ ∀ x, x ∈ pool → 0 ≤ x ≤ max_shingle self.
Proof.
  intros Hmax. unfold _pick_random_coeffs.
  destruct (pick_loop fuel rng self ∅ cursor) as [[rand_set c]| |] eqn:Hloop;
    simpl; [|done..].
  intros [= <- <-].
  apply pick_loop_exact in Hloop as [Hsize Hin]; [|done|].
  - split_and!; [done|apply NoDup_elements|].
    intros x Hx%elem_of_elements.
    by destruct (Hin x Hx) as [?%not_elem_of_empty|?].
  - rewrite size_empty. lia.
Qed.

(** C7, as the code has it. For every numHashes >= 0, once the values drawn
    include numHashes distinct ones, the rejection-sampling loop has
    terminated and returned a pool of exactly numHashes pairwise-distinct
    values from [0, 2^32 - 1], never fewer, however many draws were
    rejected; this holds for each call, hence for the a pool and the b pool
    alike. (No such draws exist for numHashes > 2^32.) *)
Theorem pick_random_coeffs_exact (n fuel : nat) (rng : nat → Z) (self : t)
    (cursor : nat) :
  max_shingle self = 2 ^ 32 - 1 →
  0 ≤ num_hashes self →
  (n ≤ fuel)%nat →
  num_hashes self
  ≤ Z.of_nat
      (size (list_to_set (draws rng (max_shingle self) cursor n) : gset Z)) →
  ∃ pool cursor',
    _pick_random_coeffs fuel rng self cursor = Ok (pool, cursor')
    ∧ Py.len pool = num_hashes self
    ∧ NoDup pool
    ∧ ∀ x, x ∈ pool → 0 ≤ x ≤ 2 ^ 32 - 1.
Proof.
  intros Hmax Hpos Hfuel Hdraws.
  assert (0 ≤ max_shingle self) as Hnonneg by (rewrite Hmax; lia).
  destruct (pick_loop_returns rng self Hnonneg n fuel ∅ cursor)
    as (rand_set & cursor' & Hloop); [done|by rewrite (left_id_L ∅ (∪))|].
  exists (elements rand_set), cursor'.
  assert (_pick_random_coeffs fuel rng self cursor
          = Ok (elements rand_set, cursor')) as Hrun.
  { unfold _pick_random_coeffs. by rewrite Hloop. }
  split; [done|].
  apply pick_random_coeffs_returns_exact in Hrun as (Hlen & Hnodup & Hin);
    [|done].
  rewrite <- Hmax. split_and!; [lia|done|done].
Qed.

Lemma pick_random_coeffs_exact_witness :
  ∃ pool cursor',
    _pick_random_coeffs 5 (λ n, Z.of_nat (n / 2)) example_algorithm 0
    = Ok (pool, cursor')
    ∧ Py.len pool = num_hashes example_algorithm
    ∧ NoDup pool
    ∧ ∀ x, x ∈ pool → 0 ≤ x ≤ 2 ^ 32 - 1.
Proof.
  apply (pick_random_coeffs_exact 5 5 (λ n, Z.of_nat (n / 2))
           example_algorithm 0);
    [reflexivity|by vm_compute|lia|by vm_compute].
Defined.

(** C7 fails for numHashes = 2^32 + 1: whatever is drawn and however long
    the loop is followed, the call does not return. *)
Lemma pick_random_coeffs_diverges :
  ¬ ∃ fuel rng cursor pool cursor',
      _pick_random_coeffs fuel rng oversized_request cursor
      = Ok (pool, cursor').
Proof.
  intros (fuel & rng & cursor & pool & cursor' & Hrun).
  unfold _pick_random_coeffs in Hrun.
  rewrite pick_loop_starves in Hrun; [done|by vm_compute..|].
  intros x Hx. by apply not_elem_of_empty in Hx.
Qed.

(** ** Construction *)

Lemma init_fields (fuel : nat) (rng : nat → Z) (docs : Py.dict Py.pyset)
    (numHashes : Z) (threshold : Q) (self : t) :
  __init__ fuel rng docs numHashes threshold = Ok self →
  docs_as_sets self = docs
  ∧ num_hashes self = numHashes
  ∧ num_docs self = Py.len docs
  ∧ max_shingle self = 2 ^ 32 - 1
  ∧ next_prime self = 4294967311
  ∧ Py.len (coeff_a self) = Z.max 0 numHashes
  ∧ Py.len (coeff_b self) = Z.max 0 numHashes
  ∧ NoDup (coeff_a self) ∧ NoDup (coeff_b self).
Proof.
  unfold __init__.
  destruct (_pick_random_coeffs fuel rng _ 0) as [[a c1]| |] eqn:Ha;
    simpl; [|done..].
  destruct (_pick_random_coeffs fuel rng _ c1) as [[b c2]| |] eqn:Hb;
    simpl; [|done..].
  intros [= <-]. simpl.
  apply pick_random_coeffs_returns_exact in Ha as (Hla & Hda & _);
    [|by vm_compute].
  apply pick_random_coeffs_returns_exact in Hb as (Hlb & Hdb & _);
    [|by vm_compute].
  simpl in Hla, Hlb. by split_and!.
Qed.

(** A constructed object with a non-negative number of hash functions
    carries a complete hash-function family. *)
Lemma init_hash_family (fuel : nat) (rng : nat → Z) (docs : Py.dict Py.pyset)
    (numHashes : Z) (threshold : Q) (self : t) :
  0 ≤ numHashes →
  __init__ fuel rng docs numHashes threshold = Ok self →
  hash_family_ok self.
Proof.
  intros Hpos (_ & Hn & _ & _ & Hp & Ha & Hb & _)%init_fields.
  unfold hash_family_ok. rewrite Hn. split_and!; [done|lia..].
Qed.

(** C8 fails: a window size of 0 and a number of hash functions of 0 are both
    accepted; neither constructor raises. *)
Lemma construction_accepts_zero :
  ¬ fails (DataLoader.__init__ (ascii_text "corpus") 0)
  ∧ ¬ fails (__init__ 0 (λ _, 0) example_docs 0 (1 # 2)).
Proof. split; intros [e He]; vm_compute in He; discriminate He. Qed.

(** C8, as the code has it. Construction validates neither parameter: the
    loader is built for every shingleSize, and for numHashes <= 0 the
    algorithm object is built at once, with empty coefficient pools. *)
Theorem construction_without_validation (directory : Py.str)
    (shingleSize : Z) (fuel : nat) (rng : nat → Z) (docs : Py.dict Py.pyset)
    (numHashes : Z) (threshold : Q) :
  numHashes ≤ 0 →
  DataLoader.__init__ directory shingleSize
  = Ok (DataLoader.mk directory 0 [] shingleSize)
  ∧ __init__ fuel rng docs numHashes threshold
    = Ok (mk docs numHashes threshold (Py.len docs) (2 ^ 32 - 1) 4294967311
            [] []).
Proof.
  intros Hle. split; [done|].
  unfold __init__, _pick_random_coeffs.
  assert (∀ self c, num_hashes self = numHashes →
            pick_loop fuel rng self ∅ c = Ok (∅, c)) as Hloop.
  { intros self c Hn. pose proof (size_empty (C:=gset Z)) as Hempty.
    destruct fuel; simpl; rewrite Hn; case_bool_decide; (done || lia). }
  rewrite Hloop by done. simpl. by rewrite Hloop.
Qed.

Lemma construction_without_validation_witness :
  DataLoader.__init__ (ascii_text "corpus") (-2)
  = Ok (DataLoader.mk (ascii_text "corpus") 0 [] (-2))
  ∧ __init__ 0 (λ _, 0) example_docs (-1) (1 # 2)
    = Ok (mk example_docs (-1) (1 # 2) (Py.len example_docs) (2 ^ 32 - 1)
            4294967311 [] []).
Proof.
  apply (construction_without_validation (ascii_text "corpus") (-2) 0
           (λ _, 0) example_docs (-1) (1 # 2)).
  lia.
Defined.



(** * Further properties of the code *)

(** ** Shingles as window hashes *)

Lemma generate_shingles_value (self : DataLoader.t) (text : Py.str) :
  encodable text = true →
  DataLoader.generate_shingles self text
  = Ok (fold_left
          (λ s i, Py.set_add (window_hash (DataLoader.shingle_size self) text i) s)
          (Py.range 0 (word_count text - DataLoader.shingle_size self + 1))
          []).
Proof.
  intros Htext. unfold DataLoader.generate_shingles. apply for_in_pure.
  intros i s _. unfold window_hash.
  by destruct (window_encodes text i (DataLoader.shingle_size self) Htext)
    as [b ->].
Qed.

Lemma elem_of_set_add (x y : Z) (s : Py.pyset) :
  x ∈ Py.set_add y s ↔ x = y ∨ x ∈ s.
Proof.
  unfold Py.set_add. case_bool_decide as Hy.
  - split; [auto|]. by intros [->|?].
  - rewrite elem_of_app, list_elem_of_singleton. tauto.
Qed.

Lemma elem_of_add_all {A : Type} (f : A → Z) (xs : list A) (s : Py.pyset)
    (x : Z) :
  x ∈ fold_left (λ s i, Py.set_add (f i) s) xs s
  ↔ x ∈ s ∨ ∃ i, i ∈ xs ∧ x = f i.
Proof.
  revert s. induction xs as [|i xs IH]; intros s; simpl.
  - split; [auto|]. intros [?|(i & Hi & _)]; [done|].
    by apply elem_of_nil in Hi.
  - rewrite IH, elem_of_set_add. split.
    + intros [[->|?]|(j & Hj & ->)]; [right; exists i|auto|right; exists j];
        (split; [|done]); [left|by right].
    + intros [?|(j & [->|Hj]%elem_of_cons & ->)]; eauto.
Qed.

(** X1. The shingle set holds exactly the masked CRC-32 values of the
    k-word windows, one window per start position i with
    0 <= i <= wordCount - k. *)
Theorem generate_shingles_members (self : DataLoader.t) (text : Py.str) :
  encodable text = true →
  ∃ shingles : Py.pyset,
    DataLoader.generate_shingles self text = Ok shingles
    ∧ ∀ x, x ∈ shingles
        ↔ ∃ i encoded,
            0 ≤ i < word_count text - DataLoader.shingle_size self + 1
            ∧ Py.encode_utf8
                (Py.join [0x20]
                   (Py.slice (Py.split text) i
                      (i + DataLoader.shingle_size self)))
              = Ok encoded
            ∧ x = Z.land (Py.crc32 encoded) 0xffffffff.
Proof.
  intros Htext. eexists. split; [by apply generate_shingles_value|].
  intros x. rewrite elem_of_add_all. split.
  - intros [Hx|(i & Hi%elem_of_range & ->)]; [by apply elem_of_nil in Hx|].
    destruct (window_encodes text i (DataLoader.shingle_size self) Htext)
      as [b Hb].
    exists i, b. unfold window_hash. rewrite Hb. split_and!; (done || lia).
  - intros (i & b & Hi & Hb & ->). right. exists i.
    split; [apply elem_of_range; lia|]. unfold window_hash. by rewrite Hb.
Qed.

Lemma generate_shingles_members_witness :
  encodable example_text = true
  ∧ ∃ shingles : Py.pyset,
      DataLoader.generate_shingles example_loader example_text = Ok shingles
      ∧ ∀ x, x ∈ shingles
          ↔ ∃ i encoded,
              0 ≤ i < word_count example_text
                      - DataLoader.shingle_size example_loader + 1
              ∧ Py.encode_utf8
                  (Py.join [0x20]
                     (Py.slice (Py.split example_text) i
                        (i + DataLoader.shingle_size example_loader)))
                = Ok encoded
              ∧ x = Z.land (Py.crc32 encoded) 0xffffffff.
Proof.
  split; [reflexivity|]. apply generate_shingles_members. reflexivity.
Defined.

Lemma mask_range (x : Z) : 0 ≤ Z.land x 0xffffffff ≤ 2 ^ 32 - 1.
Proof.
  change 0xffffffff with (Z.ones 32). rewrite Z.land_ones by lia.
  pose proof (Z.mod_pos_bound x (2 ^ 32)). lia.
Qed.

(** X2. Whenever the extractor returns, every shingle is an unsigned 32-bit
    value: it does not exceed the [max_shingle] the algorithm assumes and is
    below its modulus [next_prime]. *)
Theorem generate_shingles_range (self : DataLoader.t) (text : Py.str)
    (shingles : Py.pyset) (x : Z) :
  DataLoader.generate_shingles self text = Ok shingles →
  x ∈ shingles →
  0 ≤ x ≤ 2 ^ 32 - 1 ∧ x < 4294967311.
Proof.
  unfold DataLoader.generate_shingles.
  generalize (Py.range 0
                (Py.len (Py.split text) - DataLoader.shingle_size self + 1)).
  intros indices. 
  assert (∀ acc : Py.pyset,
            (∀ y, y ∈ acc → 0 ≤ y ≤ 2 ^ 32 - 1) →
            for_in indices
              (λ i shingles,
                 encoded ← Py.encode_utf8
                   (Py.join [0x20]
                      (Py.slice (Py.split text) i
                         (i + DataLoader.shingle_size self)));
                 Ok (Py.set_add (Z.land (Py.crc32 encoded) 0xffffffff)
                       shingles)) acc = Ok shingles →
            ∀ y, y ∈ shingles → 0 ≤ y ≤ 2 ^ 32 - 1) as Hloop.
  { induction indices as [|i indices IH]; intros acc Hacc; simpl.
    - by intros [= <-].
    - destruct (Py.encode_utf8 _) as [b| |]; simpl; [|done..].
      apply IH. intros y [->|Hy]%elem_of_set_add; [apply mask_range|auto]. }
  intros Hrun Hx.
  pose proof (Hloop [] ltac:(by intros y Hy%elem_of_nil) Hrun x Hx). lia.
Qed.

Lemma generate_shingles_range_witness :
  DataLoader.generate_shingles example_loader
    (ascii_text "the cat sat on the mat")
  = Ok [2690722008; 3363737498; 4007463573; 3360724567]
  ∧ 0 ≤ 3363737498 ≤ 2 ^ 32 - 1 ∧ 3363737498 < 4294967311.
Proof.
  split; [reflexivity|].
  apply (generate_shingles_range example_loader
           (ascii_text "the cat sat on the mat")
           [2690722008; 3363737498; 4007463573; 3360724567] 3363737498).
  - reflexivity.
  - right. left.
Defined.

Lemma add_all_nonempty {A : Type} (f : A → Z) (xs : list A) (s : Py.pyset) :
  fold_left (λ s i, Py.set_add (f i) s) xs s = [] → xs = [] ∧ s = [].
Proof.
  intros Hnil. split.
  - destruct xs as [|i xs]; [done|].
    assert (f i ∈ fold_left (λ s i, Py.set_add (f i) s) (i :: xs) s) as Hin.
    { apply elem_of_add_all. right. exists i. split; [left|done]. }
    rewrite Hnil in Hin. by apply elem_of_nil in Hin.
  - destruct s as [|x s]; [done|].
    assert (x ∈ fold_left (λ s i, Py.set_add (f i) s) xs (x :: s)) as Hin.
    { apply elem_of_add_all. left. left. }
    rewrite Hnil in Hin. by apply elem_of_nil in Hin.
Qed.

(** X3. The shingle set is empty exactly when the text has fewer words than
    the window size; a text of at least k words always yields a shingle. *)
Theorem generate_shingles_empty_iff (self : DataLoader.t) (text : Py.str) :
  encodable text = true →
  ∃ shingles : Py.pyset,
    DataLoader.generate_shingles self text = Ok shingles
    ∧ (shingles = [] ↔ word_count text < DataLoader.shingle_size self).
Proof.
  intros Htext. eexists. split; [by apply generate_shingles_value|]. split.
  - intros [Hnil _]%add_all_nonempty.
    apply (f_equal length) in Hnil. rewrite length_range in Hnil.
    simpl in Hnil. lia.
  - intros Hshort. unfold Py.range. by rewrite seqZ_nil by lia.
Qed.

Lemma generate_shingles_empty_iff_witness :
  encodable example_text = true
  ∧ ∃ shingles : Py.pyset,
      DataLoader.generate_shingles example_loader example_text = Ok shingles
      ∧ (shingles = []
         ↔ word_count example_text < DataLoader.shingle_size example_loader).
Proof.
  split; [reflexivity|]. apply generate_shingles_empty_iff. reflexivity.
Defined.

Lemma slice_empty {A : Type} (l : list A) (i : Z) : Py.slice l i (i + 0) = [].
Proof. unfold Py.slice. rewrite Z.add_0_r, Z.sub_diag. done. Qed.

(** X4. With a window size of 0 every window is the empty string, so every
    text, whatever it holds, gets the one-element shingle set {0} (the
    CRC-32 of no bytes). *)
Theorem generate_shingles_zero_window (self : DataLoader.t) (text : Py.str) :
  DataLoader.shingle_size self = 0 →
  DataLoader.generate_shingles self text = Ok [0].
Proof.
  intros Hk. unfold DataLoader.generate_shingles. rewrite Hk.
  rewrite (for_in_pure _ _ (λ s _, Py.set_add 0 s)).
  - f_equal. rewrite range_from_zero.
    replace (Z.to_nat (Py.len (Py.split text) - 0 + 1))
      with (S (length (Py.split text))) by (unfold Py.len; lia).
    simpl. generalize (seq 1 (length (Py.split text))).
    intros ks. induction ks as [|k ks IH]; [done|]. simpl. apply IH.
  - intros i s _. by rewrite slice_empty.
Qed.

Lemma generate_shingles_zero_window_witness :
  DataLoader.generate_shingles (DataLoader.mk [] 0 [] 0) example_text
  = Ok [0].
Proof.
  apply (generate_shingles_zero_window (DataLoader.mk [] 0 [] 0)).
  reflexivity.
Defined.

(** ** Text normalisation *)

Ltac decide_comparisons :=
  repeat match goal with
    | |- context [Z.leb ?a ?b] =>
        first [rewrite (proj2 (Z.leb_le a b)) by lia
              |rewrite (proj2 (Z.leb_gt a b)) by lia]
    | |- context [Z.eqb ?a ?b] =>
        first [rewrite (proj2 (Z.eqb_eq a b)) by lia
              |rewrite (proj2 (Z.eqb_neq a b)) by lia]
    end.

Lemma isspace_printable (c : Z) : 0x21 ≤ c ≤ 0x7E → Py.isspace c = false.
Proof. intros Hc. unfold Py.isspace. by decide_comparisons. Qed.

Lemma punctuation_not_space (c : Z) :
  Py.isspace c = true → Py.is_punctuation c = false.
Proof.
  intros Hspace. destruct (Py.is_punctuation c) eqn:Hpunct; [|done].
  rewrite isspace_printable in Hspace; [done|].
  unfold Py.is_punctuation in Hpunct.
  rewrite !orb_true_iff, !andb_true_iff, !Z.leb_le in Hpunct. lia.
Qed.

Lemma isspace_lower_ascii (c : Z) :
  Py.isspace (Py.lower_ascii c) = Py.isspace c.
Proof.
  unfold Py.lower_ascii. destruct (_ && _) eqn:Hupper; [|done].
  apply andb_true_iff in Hupper as [?%Z.leb_le ?%Z.leb_le].
  by rewrite !isspace_printable by lia.
Qed.

(** Splitting commutes with a code-point map that keeps whitespace apart. *)
Lemma split_from_fmap (f : Z → Z) (text word : list Z) :
  (∀ c, Py.isspace (f c) = Py.isspace c) →
  Py.split_from (f <$> text) (f <$> word)
  = (fmap f : list Z → list Z) <$> Py.split_from text word.
Proof.
  intros Hf. revert word.
  induction text as [|c text IH]; intros word; simpl.
  - by destruct word.
  - rewrite Hf. destruct (Py.isspace c).
    + destruct word; simpl; [apply (IH [])|]. f_equal. apply (IH []).
    + rewrite <- IH. by rewrite fmap_app.
Qed.

Lemma filter_nonempty_cons (w : list Z) (ws : list (list Z)) :
  filter (λ w : list Z, w ≠ []) (w :: ws)
  = match w with
    | [] => filter (λ w : list Z, w ≠ []) ws
    | _ => w :: filter (λ w : list Z, w ≠ []) ws
    end.
Proof. rewrite filter_cons. destruct w; by case_decide. Qed.

(** Deleting code points that are no whitespace empties some words and
    moves no word boundary. *)
Lemma split_from_filter (P : Z → Prop) `{!∀ c, Decision (P c)}
    (text word : list Z) :
  (∀ c, Py.isspace c = true → P c) →
  Py.split_from (filter P text) (filter P word)
  = filter (λ w : list Z, w ≠ [])
      ((filter P : list Z → list Z) <$> Py.split_from text word).
Proof.
  intros Hkeep. revert word.
  induction text as [|c text IH]; intros word.
  - rewrite filter_nil. cbn [Py.split_from].
    destruct word as [|c0 word]; [done|].
    rewrite list_fmap_singleton, filter_nonempty_cons. 
    by destruct (filter P (c0 :: word)).
  - cbn [Py.split_from]. destruct (Py.isspace c) eqn:Hspace.
    + rewrite filter_cons_True by auto. cbn [Py.split_from]. rewrite Hspace.
      destruct word as [|c0 word]; [apply (IH [])|].
      rewrite fmap_cons, filter_nonempty_cons, <- (IH []).
      by destruct (filter P (c0 :: word)).
    + rewrite <- IH, filter_app.
      rewrite (filter_cons P c text), (filter_cons P c []), filter_nil.
      case_decide.
      * cbn [Py.split_from]. by rewrite Hspace.
      * by rewrite app_nil_r.
Qed.

(** Collapsing whitespace runs changes no word. *)
Lemma split_from_sub_whitespace (text word : Py.str) (in_run : bool) :
  (in_run = true → word = []) →
  Py.split_from (Py.sub_whitespace_from text in_run) word
  = Py.split_from text word.
Proof.
  revert word in_run.
  induction text as [|c text IH]; intros word in_run Hrun; simpl; [done|].
  destruct (Py.isspace c) eqn:Hspace.
  - destruct in_run.
    + rewrite Hrun by done. by apply IH.
    + simpl. destruct word; by rewrite IH.
  - simpl. rewrite Hspace. by apply IH.
Qed.

Lemma lower_isascii (unicode_lower : Py.str → nat → Py.str) (s : list Z) :
  isascii s = true → Py.lower unicode_lower s = Py.lower_ascii <$> s.
Proof.
  unfold Py.lower, isascii. generalize (unicode_lower s). intros g.
  revert g. induction s as [|c s IH]; intros g; simpl; [done|].
  intros [Hc Hs]%andb_true_iff. rewrite Hc. simpl. f_equal.
  by apply (IH (g ∘ S)).
Qed.

Lemma sub_whitespace_isascii (text : Py.str) (in_run : bool) :
  isascii text = true → isascii (Py.sub_whitespace_from text in_run) = true.
Proof.
  unfold isascii. revert in_run.
  induction text as [|c text IH]; intros in_run; simpl; [done|].
  intros [Hc Hs]%andb_true_iff.
  destruct (Py.isspace c); [destruct in_run|]; simpl; rewrite ?Hc; simpl;
    auto.
Qed.

Lemma delete_punctuation_isascii (text : Py.str) :
  isascii text = true → isascii (Py.delete_punctuation text) = true.
Proof.
  unfold isascii, Py.delete_punctuation, Py.str.
  induction text as [|c text IH]; [done|]. cbn [forallb].
  intros [Hc Hs]%andb_true_iff. rewrite filter_cons.
  case_decide; cbn [forallb]; rewrite ?Hc; simpl; auto.
Qed.

(** X5. For ASCII text, the words of the preprocessed text are the words of
    the original text with punctuation deleted and capitals lowered; a word
    made of punctuation only disappears, and no two words ever merge. *)
Theorem basic_preprocess_words (unicode_lower : Py.str → nat → Py.str)
    (self : DataLoader.t) (text : Py.str) :
  isascii text = true →
  Py.split (DataLoader.basic_preprocess unicode_lower self text)
  = (fmap Py.lower_ascii : list Z → list Z)
      <$> filter (λ w : list Z, w ≠ [])
            (Py.delete_punctuation <$> Py.split text).
Proof.
  intros Hascii. unfold DataLoader.basic_preprocess, Py.split.
  rewrite lower_isascii
    by by apply delete_punctuation_isascii, sub_whitespace_isascii.
  rewrite (split_from_fmap Py.lower_ascii _ []) by apply isspace_lower_ascii.
  f_equal. unfold Py.delete_punctuation, Py.str.
  rewrite (split_from_filter _ _ []) by apply punctuation_not_space.
  unfold Py.sub_whitespace. by rewrite split_from_sub_whitespace.
Qed.

Lemma basic_preprocess_words_witness :
  isascii (ascii_text "The  cat, sat ON - the Mat!") = true
  ∧ Py.split
      (DataLoader.basic_preprocess (λ s i, [s !!! i]) example_loader
         (ascii_text "The  cat, sat ON - the Mat!"))
    = (fmap Py.lower_ascii : list Z → list Z)
        <$> filter (λ w : list Z, w ≠ [])
              (Py.delete_punctuation
                 <$> Py.split (ascii_text "The  cat, sat ON - the Mat!")).
Proof.
  split; [reflexivity|]. apply basic_preprocess_words. reflexivity.
Defined.

Lemma sub_whitespace_only_spaces (text : list Z) (in_run : bool) (c : Z) :
  c ∈ Py.sub_whitespace_from text in_run → Py.isspace c = true → c = 0x20.
Proof.
  revert in_run. induction text as [|c0 text IH]; intros in_run; simpl.
  - by intros ?%elem_of_nil.
  - destruct (Py.isspace c0) eqn:Hspace; [destruct in_run|]; eauto.
    + intros [->|?]%elem_of_cons; eauto.
    + intros [->|?]%elem_of_cons; [congruence|eauto].
Qed.

(** X6. For ASCII text the preprocessed text holds no punctuation mark and
    no capital letter, and its only whitespace is the space character. *)
Theorem basic_preprocess_alphabet (unicode_lower : Py.str → nat → Py.str)
    (self : DataLoader.t) (text : Py.str) (c : Z) :
  isascii text = true →
  c ∈ DataLoader.basic_preprocess unicode_lower self text →
  Py.is_punctuation c = false
  ∧ ¬ (0x41 ≤ c ≤ 0x5A)
  ∧ (Py.isspace c = true → c = 0x20).
Proof.
  intros Hascii. unfold DataLoader.basic_preprocess.
  rewrite lower_isascii
    by by apply delete_punctuation_isascii, sub_whitespace_isascii.
  unfold Py.delete_punctuation, Py.str.
  intros (c0 & -> & [Hpunct Hc0]%list_elem_of_filter)%list_elem_of_fmap.
  split_and!.
  - unfold Py.lower_ascii. destruct (_ && _) eqn:Hupper; [|done].
    apply andb_true_iff in Hupper as [?%Z.leb_le ?%Z.leb_le].
    unfold Py.is_punctuation. by decide_comparisons.
  - unfold Py.lower_ascii. destruct (_ && _) eqn:Hupper.
    + apply andb_true_iff in Hupper as [?%Z.leb_le ?%Z.leb_le]. lia.
    + apply andb_false_iff in Hupper as [?%Z.leb_gt| ?%Z.leb_gt]; lia.
  - rewrite isspace_lower_ascii. intros Hspace.
    by rewrite (sub_whitespace_only_spaces _ _ _ Hc0 Hspace).
Qed.

Lemma basic_preprocess_alphabet_witness :
  isascii (ascii_text "The  cat, sat ON - the Mat!") = true
  ∧ Py.is_punctuation 0x74 = false
  ∧ ¬ (0x41 ≤ 0x74 ≤ 0x5A)
  ∧ (Py.isspace 0x74 = true → 0x74 = 0x20).
Proof.
  split; [reflexivity|].
  apply (basic_preprocess_alphabet (λ s i, [s !!! i]) example_loader
           (ascii_text "The  cat, sat ON - the Mat!") 0x74);
    [reflexivity|]. 
  vm_compute. left.
Defined.

(** ** Loading a directory *)

Lemma dict_setitem_fresh {V : Type} (d : Py.dict V) (k : Z) (v : V) :
  k ∉ Py.keys d → Py.dict_setitem d k v = d ++ [(k, v)].
Proof.
  unfold Py.keys. induction d as [|[k' v'] d IH]; simpl; [done|].
  intros Hk. case_bool_decide as Heq.
  - destruct Hk. rewrite Heq. left.
  - rewrite IH; [done|]. intros Hin. apply Hk. by right.
Qed.

Lemma txt_names_cons (filename : Py.str) (filenames : list Py.str) :
  txt_names (filename :: filenames)
  = if Py.endswith filename [0x2E; 0x74; 0x78; 0x74]
    then filename :: txt_names filenames
    else txt_names filenames.
Proof.
  unfold txt_names. rewrite filter_cons.
  destruct (Py.endswith filename _); by case_decide.
Qed.

Section Loading.

Variable fs : Py.filesystem.
Variable unicode_lower : Py.str → nat → Py.str.

Lemma get_docs_from_prefix (pre rest : list Py.str) (self : DataLoader.t)
    (texts : list Py.str) (sets : list Py.pyset) :
  Forall2 (λ f text,
             Py.read_text fs (DataLoader.directory self) f = inr text)
    (txt_names pre) texts →
  Forall2 (λ text shingles,
             DataLoader.generate_shingles self
               (DataLoader.basic_preprocess unicode_lower self text)
             = Ok shingles)
    texts sets →
  Forall (λ k, k ≤ DataLoader.doc_counter self)
    (Py.keys (DataLoader.docs_as_sets self)) →
  DataLoader.get_docs_from fs unicode_lower self (pre ++ rest)
  = DataLoader.get_docs_from fs unicode_lower
      (loaded self (Py.len texts) sets) rest.
Proof.
  revert self texts sets.
  induction pre as [|f pre IH]; intros self texts sets Hread Hshingle Hkeys.
  - rewrite (Forall2_nil_inv_l _ _ Hread) in *.
    rewrite (Forall2_nil_inv_l _ _ Hshingle).
    unfold loaded. simpl. rewrite Z.add_0_r, app_nil_r. by destruct self.
  - rewrite txt_names_cons in Hread. simpl.
    destruct (Py.endswith f _); [|by apply IH].
    apply Forall2_cons_inv_l in Hread as (text & texts' & Htext & Hread & ->).
    apply Forall2_cons_inv_l in Hshingle
      as (shingles & sets' & Hset & Hshingle & ->).
    rewrite Htext.
    change (DataLoader.generate_shingles
              (DataLoader.with_doc_counter self
                 (DataLoader.doc_counter self + 1)) ?t)
      with (DataLoader.generate_shingles self t).
    change (DataLoader.basic_preprocess unicode_lower
              (DataLoader.with_doc_counter self
                 (DataLoader.doc_counter self + 1)) text)
      with (DataLoader.basic_preprocess unicode_lower self text).
    rewrite Hset. simpl.
    rewrite dict_setitem_fresh.
    2:{ intros Hin. rewrite Forall_forall in Hkeys.
        specialize (Hkeys _ Hin). lia. }
    rewrite (IH _ texts' sets'); simpl; [|done|done|].
    + unfold loaded, Py.len. simpl.
      rewrite (seqZ_cons _ (Z.of_nat (S _))) by lia. simpl.
      rewrite <- app_assoc. simpl.
      replace (Z.succ (DataLoader.doc_counter self + 1))
        with (DataLoader.doc_counter self + 1 + 1) by lia.
      replace (Z.pred (Z.of_nat (S (length texts'))))
        with (Z.of_nat (length texts')) by lia.
      replace (DataLoader.doc_counter self + Z.of_nat (S (length texts')))
        with (DataLoader.doc_counter self + 1 + Z.of_nat (length texts'))
        by lia.
      done.
    + unfold Py.keys. rewrite fmap_app, Forall_app. split.
      * eapply Forall_impl; [exact Hkeys|]. simpl. intros; lia.
      * repeat constructor. simpl. lia.
Qed.

End Loading.

(** X7. On a loader none of whose stored ids exceeds its counter c (a new
    loader stores none), when every listed name ending in ".txt" can be read
    and shingled, [get_docs_as_sets] appends one entry per such name, in
    listing order, under the ids c+1, c+2, ...; each entry holds the shingles
    of the preprocessed file text, other names are not opened, the counter
    ends at c + n, and the dictionary returned is the loader's own. *)
Theorem get_docs_as_sets_loads (fs : Py.filesystem)
    (unicode_lower : Py.str → nat → Py.str) (self : DataLoader.t)
    (filenames texts : list Py.str) (sets : list Py.pyset) :
  Py.listdir fs (DataLoader.directory self) = inr filenames →
  Forall2 (λ f text,
             Py.read_text fs (DataLoader.directory self) f = inr text)
    (txt_names filenames) texts →
  Forall2 (λ text shingles,
             DataLoader.generate_shingles self
               (DataLoader.basic_preprocess unicode_lower self text)
             = Ok shingles)
    texts sets →
  Forall (λ k, k ≤ DataLoader.doc_counter self)
    (Py.keys (DataLoader.docs_as_sets self)) →
  DataLoader.get_docs_as_sets fs unicode_lower self
  = (loaded self (Py.len texts) sets,
     inr (Ok (DataLoader.docs_as_sets self
              ++ zip (seqZ (DataLoader.doc_counter self + 1) (Py.len texts))
                   sets))).
Proof.
  intros Hlist Hread Hshingle Hkeys. unfold DataLoader.get_docs_as_sets.
  rewrite Hlist, <- (app_nil_r filenames).
  by rewrite (get_docs_from_prefix fs unicode_lower filenames [] self texts
                sets).
Qed.

Lemma get_docs_as_sets_loads_witness :
  DataLoader.get_docs_as_sets example_fs identity_lower new_loader
  = (loaded new_loader 2 [[4044581832; 902006018]; [4044581832; 902006018]],
     inr (Ok [(1, [4044581832; 902006018]); (2, [4044581832; 902006018])])).
Proof.
  apply (get_docs_as_sets_loads example_fs identity_lower new_loader
           [ascii_text "a.txt"; ascii_text "notes.md"; ascii_text "c.txt"]
           [ascii_text "the cat sat"; ascii_text "The cat, sat!"]
           [[4044581832; 902006018]; [4044581832; 902006018]]);
    [reflexivity|repeat constructor..].
Defined.

(** X8. When reading a ".txt" file raises, [get_docs_as_sets] raises the
    same exception at once; the documents stored before it stay in the
    loader, the counter stands at the last id given, and no later name is
    visited. *)
Theorem get_docs_as_sets_aborts (fs : Py.filesystem)
    (unicode_lower : Py.str → nat → Py.str) (self : DataLoader.t)
    (before after texts : list Py.str) (unreadable : Py.str) (e : Py.io_exn)
    (sets : list Py.pyset) :
  Py.listdir fs (DataLoader.directory self)
  = inr (before ++ unreadable :: after) →
  Py.endswith unreadable [0x2E; 0x74; 0x78; 0x74] = true →
  Py.read_text fs (DataLoader.directory self) unreadable = inl e →
  Forall2 (λ f text,
             Py.read_text fs (DataLoader.directory self) f = inr text)
    (txt_names before) texts →
  Forall2 (λ text shingles,
             DataLoader.generate_shingles self
               (DataLoader.basic_preprocess unicode_lower self text)
             = Ok shingles)
    texts sets →
  Forall (λ k, k ≤ DataLoader.doc_counter self)
    (Py.keys (DataLoader.docs_as_sets self)) →
  DataLoader.get_docs_as_sets fs unicode_lower self
  = (loaded self (Py.len texts) sets, inl e).
Proof.
  intros Hlist Hsuffix Hfail Hread Hshingle Hkeys.
  unfold DataLoader.get_docs_as_sets. rewrite Hlist.
  rewrite (get_docs_from_prefix fs unicode_lower before _ self texts sets)
    by done.
  simpl. by rewrite Hsuffix, Hfail.
Qed.

Lemma get_docs_as_sets_aborts_witness :
  DataLoader.get_docs_as_sets broken_fs identity_lower new_loader
  = (loaded new_loader 2 [[4044581832; 902006018]; [4044581832; 902006018]],
     inl Py.OSError).
Proof.
  apply (get_docs_as_sets_aborts broken_fs identity_lower new_loader
           [ascii_text "a.txt"; ascii_text "notes.md"; ascii_text "c.txt"]
           []
           [ascii_text "the cat sat"; ascii_text "The cat, sat!"]
           (ascii_text "z.txt") Py.OSError
           [[4044581832; 902006018]; [4044581832; 902006018]]);
    [reflexivity|reflexivity|reflexivity|repeat constructor..].
Defined.

Lemma load_documents_from_ids (fs : Py.filesystem) (self : DataLoader.t)
    (filenames texts : list Py.str) :
  Forall2 (λ f text,
             Py.read_text fs (DataLoader.directory self) f = inr text)
    (txt_names filenames) texts →
  DataLoader.load_documents_from fs self filenames
  = (DataLoader.with_doc_counter self
       (DataLoader.doc_counter self + Py.len texts),
     inr (zip (seqZ (DataLoader.doc_counter self + 1) (Py.len texts)) texts)).
Proof.
  revert self texts.
  induction filenames as [|f filenames IH]; intros self texts Hread.
  - rewrite (Forall2_nil_inv_l _ _ Hread). simpl.
    unfold DataLoader.with_doc_counter. rewrite Z.add_0_r. by destruct self.
  - rewrite txt_names_cons in Hread. simpl.
    destruct (Py.endswith f _); [|by apply IH].
    apply Forall2_cons_inv_l in Hread as (text & texts' & Htext & Hread & ->).
    rewrite Htext, (IH _ texts') by done.
    unfold DataLoader.with_doc_counter, Py.len. simpl.
    rewrite (seqZ_cons _ (Z.of_nat (S _))) by lia. simpl.
    replace (Z.succ (DataLoader.doc_counter self + 1))
      with (DataLoader.doc_counter self + 1 + 1) by lia.
    replace (Z.pred (Z.of_nat (S (length texts'))))
      with (Z.of_nat (length texts')) by lia.
    replace (DataLoader.doc_counter self + Z.of_nat (S (length texts')))
      with (DataLoader.doc_counter self + 1 + Z.of_nat (length texts'))
      by lia.
    done.
Qed.

(** X9. Run to its end over a directory whose ".txt" files can all be read,
    the generator [load_documents] yields these files' texts in listing
    order, numbered consecutively from the loader's counter plus one, and
    leaves the counter at the last number; it changes nothing else and
    skips every other name. *)
Theorem load_documents_ids (fs : Py.filesystem) (self : DataLoader.t)
    (filenames texts : list Py.str) :
  Py.listdir fs (DataLoader.directory self) = inr filenames →
  Forall2 (λ f text,
             Py.read_text fs (DataLoader.directory self) f = inr text)
    (txt_names filenames) texts →
  DataLoader.load_documents fs self
  = (DataLoader.with_doc_counter self
       (DataLoader.doc_counter self + Py.len texts),
     inr (zip (seqZ (DataLoader.doc_counter self + 1) (Py.len texts)) texts)).
Proof.
  intros Hlist Hread. unfold DataLoader.load_documents. rewrite Hlist.
  by apply load_documents_from_ids.
Qed.

Lemma load_documents_ids_witness :
  DataLoader.load_documents example_fs new_loader
  = (DataLoader.with_doc_counter new_loader 2,
     inr [(1, ascii_text "the cat sat"); (2, ascii_text "The cat, sat!")]).
Proof.
  apply (load_documents_ids example_fs new_loader
           [ascii_text "a.txt"; ascii_text "notes.md"; ascii_text "c.txt"]
           [ascii_text "the cat sat"; ascii_text "The cat, sat!"]);
    [reflexivity|repeat constructor].
Defined.

(** ** Construction, continued *)

(** X10. Whenever construction returns, the object holds the corpus, its
    size, the constants 2^32 - 1 and 4294967311, and two coefficient pools of
    max(0, numHashes) values each, pairwise distinct within a pool and all in
    [0, 2^32 - 1]. *)
Theorem construction_invariants (fuel : nat) (rng : nat → Z)
    (docs : Py.dict Py.pyset) (numHashes : Z) (threshold : Q) (self : t) :
  __init__ fuel rng docs numHashes threshold = Ok self →
  docs_as_sets self = docs
  ∧ num_hashes self = numHashes
  ∧ similarity_threshold self = threshold
  ∧ num_docs self = Py.len docs
  ∧ max_shingle self = 2 ^ 32 - 1
  ∧ next_prime self = 4294967311
  ∧ Py.len (coeff_a self) = Z.max 0 numHashes
  ∧ Py.len (coeff_b self) = Z.max 0 numHashes
  ∧ NoDup (coeff_a self)
  ∧ NoDup (coeff_b self)
  ∧ ∀ x, x ∈ coeff_a self ∨ x ∈ coeff_b self → 0 ≤ x ≤ 2 ^ 32 - 1.
Proof.
  unfold __init__.
  destruct (_pick_random_coeffs fuel rng _ 0) as [[a c1]| |] eqn:Ha;
    simpl; [|done..].
  destruct (_pick_random_coeffs fuel rng _ c1) as [[b c2]| |] eqn:Hb;
    simpl; [|done..].
  intros [= <-]. simpl.
  apply pick_random_coeffs_returns_exact in Ha as (Hla & Hda & Hra);
    [|by vm_compute].
  apply pick_random_coeffs_returns_exact in Hb as (Hlb & Hdb & Hrb);
    [|by vm_compute].
  simpl in *. split_and!; try done. intros x [Hx|Hx]; auto.
Qed.

Lemma construction_invariants_witness :
  docs_as_sets (mk [] 2 (1 # 2) 0 (2 ^ 32 - 1) 4294967311 [1; 0] [3; 2]) = []
  ∧ num_hashes (mk [] 2 (1 # 2) 0 (2 ^ 32 - 1) 4294967311 [1; 0] [3; 2]) = 2
  ∧ similarity_threshold
      (mk [] 2 (1 # 2) 0 (2 ^ 32 - 1) 4294967311 [1; 0] [3; 2]) = (1 # 2)%Q
  ∧ num_docs (mk [] 2 (1 # 2) 0 (2 ^ 32 - 1) 4294967311 [1; 0] [3; 2])
    = Py.len (@nil (Z * Py.pyset))
  ∧ max_shingle (mk [] 2 (1 # 2) 0 (2 ^ 32 - 1) 4294967311 [1; 0] [3; 2])
    = 2 ^ 32 - 1
  ∧ next_prime (mk [] 2 (1 # 2) 0 (2 ^ 32 - 1) 4294967311 [1; 0] [3; 2])
    = 4294967311
  ∧ Py.len (coeff_a (mk [] 2 (1 # 2) 0 (2 ^ 32 - 1) 4294967311 [1; 0] [3; 2]))
    = Z.max 0 2
  ∧ Py.len (coeff_b (mk [] 2 (1 # 2) 0 (2 ^ 32 - 1) 4294967311 [1; 0] [3; 2]))
    = Z.max 0 2
  ∧ NoDup (coeff_a (mk [] 2 (1 # 2) 0 (2 ^ 32 - 1) 4294967311 [1; 0] [3; 2]))
  ∧ NoDup (coeff_b (mk [] 2 (1 # 2) 0 (2 ^ 32 - 1) 4294967311 [1; 0] [3; 2]))
  ∧ ∀ x,
      x ∈ coeff_a (mk [] 2 (1 # 2) 0 (2 ^ 32 - 1) 4294967311 [1; 0] [3; 2])
      ∨ x ∈ coeff_b (mk [] 2 (1 # 2) 0 (2 ^ 32 - 1) 4294967311 [1; 0] [3; 2]) →
      0 ≤ x ≤ 2 ^ 32 - 1.
Proof.
  apply (construction_invariants 2 Z.of_nat [] 2 (1 # 2)).
  by vm_compute.
Defined.

(** A longer budget does not change what the loop returns. *)
Lemma pick_loop_fuel_mono (fuel fuel' : nat) (rng : nat → Z) (self : t)
    (rand_set : gset Z) (cursor : nat) (r : gset Z * nat) :
  pick_loop fuel rng self rand_set cursor = Ok r →
  (fuel ≤ fuel')%nat →
  pick_loop fuel' rng self rand_set cursor = Ok r.
Proof.
  revert fuel' rand_set cursor.
  induction fuel as [|fuel IH]; intros fuel' rand_set cursor; simpl.
  - case_bool_decide as Hsize; [done|]. intros Hrun _.
    destruct fuel'; simpl; by rewrite bool_decide_eq_false_2.
  - case_bool_decide as Hsize.
    + intros Hrun Hle. destruct fuel' as [|fuel']; [lia|]. simpl.
      rewrite bool_decide_eq_true_2 by done.
      destruct (Py.randint rng 0 (max_shingle self) cursor)
        as [[x c]| |]; simpl in *; [|done..].
      case_bool_decide; apply IH; (done || lia).
    + intros Hrun _. destruct fuel'; simpl; by rewrite bool_decide_eq_false_2.
Qed.

(** X11. If from every point on the random source eventually delivers
    numHashes distinct values -- which a uniform source does with
    probability 1 when numHashes <= 2^32 -- then construction terminates:
    followed long enough it returns an object. *)
Theorem construction_terminates (rng : nat → Z) (docs : Py.dict Py.pyset)
    (numHashes : Z) (threshold : Q) :
  (∀ cursor, ∃ n,
     numHashes
     ≤ Z.of_nat
         (size (list_to_set (draws rng (2 ^ 32 - 1) cursor n) : gset Z))) →
  ∃ fuel self, __init__ fuel rng docs numHashes threshold = Ok self.
Proof.
  intros Hfair.
  set (self0 := mk docs numHashes threshold (Py.len docs) (2 ^ 32 - 1)
                  4294967311 [] []).
  assert (∀ a cursor, ∃ fuel rand_set cursor',
            pick_loop fuel rng (with_coeff_a self0 a) ∅ cursor
            = Ok (rand_set, cursor')) as Hpick.
  { intros a cursor. destruct (Hfair cursor) as [n Hn]. exists n.
    apply (pick_loop_returns rng (with_coeff_a self0 a) ltac:(by vm_compute)
             n n ∅ cursor); [done|].
    by rewrite (left_id_L ∅ (∪)). }
  destruct (Hpick [] 0%nat) as (fa & ra & c1 & Ha).
  destruct (Hpick (elements ra) c1) as (fb & rb & c2 & Hb).
  exists (fa `max` fb)%nat. eexists.
  unfold __init__, _pick_random_coeffs. fold self0.
  change (pick_loop ?f rng self0) with (pick_loop f rng (with_coeff_a self0 [])).
  rewrite (pick_loop_fuel_mono fa _ _ _ _ _ _ Ha) by lia. simpl.
  rewrite (pick_loop_fuel_mono fb _ _ _ _ _ _ Hb) by lia. simpl. done.
Qed.

Lemma construction_terminates_witness :
  ∃ fuel self, __init__ fuel (λ _, 0) example_docs 1 (1 # 2) = Ok self.
Proof.
  apply (construction_terminates (λ _, 0) example_docs 1 (1 # 2)).
  intros cursor. exists 1%nat. by vm_compute.
Defined.

(** When no draw is rejected the loop takes exactly as many draws as values
    are missing. *)
Lemma pick_loop_no_rejection (n fuel : nat) (rng : nat → Z) (self : t)
    (rand_set : gset Z) (cursor : nat) :
  0 ≤ max_shingle self →
  (n ≤ fuel)%nat →
  Z.of_nat (size rand_set + n) = num_hashes self →
  NoDup (draws rng (max_shingle self) cursor n) →
  (∀ x, x ∈ draws rng (max_shingle self) cursor n → x ∉ rand_set) →
  pick_loop fuel rng self rand_set cursor
  = Ok (list_to_set (draws rng (max_shingle self) cursor n) ∪ rand_set,
        (cursor + n)%nat).
Proof.
  intros Hmax. revert fuel rand_set cursor.
  induction n as [|n IH]; intros fuel rand_set cursor Hfuel Hsize Hdup Hnew.
  - destruct fuel; simpl; rewrite bool_decide_eq_false_2 by lia;
      by rewrite (left_id_L ∅ (∪)), Nat.add_0_r.
  - destruct fuel as [|fuel]; [lia|]. simpl.
    rewrite bool_decide_eq_true_2 by lia.
    rewrite (randint_value rng self Hmax). simpl.
    unfold draws in Hdup, Hnew. simpl in Hdup, Hnew.
    fold (draws rng (max_shingle self) (S cursor) n) in Hdup, Hnew.
    apply NoDup_cons in Hdup as [Hhead Hdup].
    rewrite bool_decide_eq_true_2 by (apply Hnew; left).
    rewrite IH; [|lia| |done|].
    + f_equal. f_equal; [|lia]. unfold draws. simpl.
      by rewrite (assoc_L (∪)), (comm_L (∪) (list_to_set _) {[_]}).
    + rewrite size_union, size_singleton; [lia|].
      apply disjoint_singleton_l, Hnew. left.
    + intros x Hx [->%elem_of_singleton|Hin]%elem_of_union; [done|].
      by apply (Hnew x); [right|].
Qed.

(** Started on the empty set with pairwise distinct draws ahead, the
    sampling loop of [__init__] returns these draws. *)
Lemma pick_from_empty (fuel : nat) (rng : nat → Z) (docs : Py.dict Py.pyset)
    (numHashes : Z) (threshold : Q) (a : list Z) (cursor : nat) :
  0 ≤ numHashes →
  (Z.to_nat numHashes ≤ fuel)%nat →
  NoDup (draws rng (2 ^ 32 - 1) cursor (Z.to_nat numHashes)) →
  pick_loop fuel rng
    (with_coeff_a
       (mk docs numHashes threshold (Py.len docs) (2 ^ 32 - 1) 4294967311
          [] []) a) ∅ cursor
  = Ok (list_to_set (draws rng (2 ^ 32 - 1) cursor (Z.to_nat numHashes)) ∪ ∅,
        (cursor + Z.to_nat numHashes)%nat).
Proof.
  intros Hpos Hfuel Hdup. apply pick_loop_no_rejection; try done.
  rewrite size_empty. simpl. lia.
Qed.

(** X12. When the first numHashes draws are pairwise distinct, and the next
    numHashes draws as well, nothing is rejected: construction returns within
    numHashes iterations per pool, pool a holds exactly the first numHashes
    draws and pool b exactly the next numHashes. *)
Theorem construction_without_rejection (fuel : nat) (rng : nat → Z)
    (docs : Py.dict Py.pyset) (numHashes : Z) (threshold : Q) :
  0 ≤ numHashes →
  (Z.to_nat numHashes ≤ fuel)%nat →
  NoDup (draws rng (2 ^ 32 - 1) 0 (Z.to_nat numHashes)) →
  NoDup (draws rng (2 ^ 32 - 1) (Z.to_nat numHashes) (Z.to_nat numHashes)) →
  ∃ self,
    __init__ fuel rng docs numHashes threshold = Ok self
    ∧ (∀ x, x ∈ coeff_a self
          ↔ x ∈ draws rng (2 ^ 32 - 1) 0 (Z.to_nat numHashes))
    ∧ (∀ x, x ∈ coeff_b self
          ↔ x ∈ draws rng (2 ^ 32 - 1) (Z.to_nat numHashes)
                  (Z.to_nat numHashes)).
Proof.
  intros Hpos Hfuel Hda Hdb. unfold __init__, _pick_random_coeffs.
  change (pick_loop fuel rng ?self0 ∅ 0)
    with (pick_loop fuel rng (with_coeff_a self0 []) ∅ 0).
  rewrite pick_from_empty by done. simpl.
  rewrite pick_from_empty by done. simpl.
  eexists. split; [done|]. simpl.
  split; intros x; rewrite elem_of_elements, (right_id_L ∅ (∪));
    apply elem_of_list_to_set.
Qed.

Lemma construction_without_rejection_witness :
  ∃ self,
    __init__ 3 Z.of_nat example_docs 3 (1 # 2) = Ok self
    ∧ (∀ x, x ∈ coeff_a self
          ↔ x ∈ draws Z.of_nat (2 ^ 32 - 1) 0 (Z.to_nat 3))
    ∧ (∀ x, x ∈ coeff_b self
          ↔ x ∈ draws Z.of_nat (2 ^ 32 - 1) (Z.to_nat 3) (Z.to_nat 3)).
Proof.
  apply (construction_without_rejection 3 Z.of_nat example_docs 3 (1 # 2));
    [lia|by vm_compute|..];
    apply (bool_decide_unpack _); by vm_compute.
Defined.

(** ** The pipeline from signatures to similarities *)

Lemma similarity_pairs_prefix_length (numHashes : Z)
    (signatures : list (list Z)) (n : Z) (m : nat) :
  Z.of_nat m ≤ n →
  Py.len
    (seqZ 0 (Z.of_nat m) ≫= λ i,
       (λ j, (i, j, agreement numHashes (signatures !!! Z.to_nat i)
                                        (signatures !!! Z.to_nat j)))
         <$> Py.range (i + 1) n) * 2
  = Z.of_nat m * (2 * n - 1 - Z.of_nat m).
Proof.
  unfold Py.len. induction m as [|m IH]; intros Hm; [done|].
  rewrite seqZ_S, bind_app, length_app, bind_cons. simpl mbind at 2.
  rewrite app_nil_r.
  rewrite length_fmap, length_range. specialize (IH ltac:(lia)). nia.
Qed.

Lemma similarity_pairs_length (numHashes : Z) (signatures : list (list Z))
    (n : Z) :
  0 ≤ n →
  Py.len (similarity_pairs numHashes signatures n) * 2 = n * (n - 1).
Proof.
  intros Hn. unfold similarity_pairs.
  replace (Py.range 0 n) with (seqZ 0 (Z.of_nat (Z.to_nat n)))
    by (unfold Py.range; f_equal; lia).
  rewrite similarity_pairs_prefix_length by lia. lia.
Qed.

Lemma pipeline_value (self : t) :
  hash_family_ok self →
  0 < num_hashes self →
  num_docs self = Py.len (docs_as_sets self) →
  ∃ signatures,
    generate_minhash_signatures self = Ok signatures
    ∧ Py.len signatures = num_docs self
    ∧ calculate_similarities self signatures
      = Ok (similarity_pairs (num_hashes self) signatures (num_docs self)).
Proof.
  intros Hok Hpos Hdocs.
  pose proof (generate_minhash_signatures_value self Hok) as Hrun.
  set (signatures := _ <$> _) in Hrun.
  assert (Py.len signatures = num_docs self) as Hlen.
  { unfold signatures, Py.keys, Py.len. rewrite !length_fmap.
    by rewrite Hdocs. }
  exists signatures. split_and!; [done|done|].
  apply calculate_similarities_value; [done|done|].
  apply Forall_fmap, Forall_true. intros k.
  by apply signature_value_length.
Qed.

(** X13. For an object with a complete hash family and numHashes > 0,
    signing the corpus and comparing the signatures never raises: there is
    one signature per document, n(n-1)/2 result triples for n documents,
    and every estimated similarity lies between 0 and 1. *)
Theorem pipeline_returns (self : t) :
  hash_family_ok self →
  0 < num_hashes self →
  num_docs self = Py.len (docs_as_sets self) →
  ∃ signatures similarities,
    generate_minhash_signatures self = Ok signatures
    ∧ Py.len signatures = num_docs self
    ∧ calculate_similarities self signatures = Ok similarities
    ∧ Py.len similarities * 2 = num_docs self * (num_docs self - 1)
    ∧ ∀ i j sim, (i, j, sim) ∈ similarities → Qle 0 sim ∧ Qle sim 1.
Proof.
  intros Hok Hpos Hdocs.
  destruct (pipeline_value self Hok Hpos Hdocs)
    as (signatures & Hrun & Hlen & Hsims).
  exists signatures. eexists. split_and!; [done|done|done| |].
  - apply similarity_pairs_length. unfold Py.len in Hlen. lia.
  - intros i j sim (_ & _ & ->)%elem_of_similarity_pairs.
    by apply agreement_bounds.
Qed.

Lemma pipeline_returns_witness :
  ∃ signatures similarities,
    generate_minhash_signatures example_algorithm = Ok signatures
    ∧ Py.len signatures = num_docs example_algorithm
    ∧ calculate_similarities example_algorithm signatures = Ok similarities
    ∧ Py.len similarities * 2
      = num_docs example_algorithm * (num_docs example_algorithm - 1)
    ∧ ∀ i j sim, (i, j, sim) ∈ similarities → Qle 0 sim ∧ Qle sim 1.
Proof.
  apply (pipeline_returns example_algorithm);
    [repeat split|reflexivity|reflexivity]; reflexivity.
Defined.

(** X14. With numHashes = 0 construction and signing succeed, every
    signature being empty, but comparing two or more documents raises
    ZeroDivisionError at the first pair. *)
Theorem zero_hashes_divide_by_zero (self : t) :
  hash_family_ok self →
  num_hashes self = 0 →
  num_docs self = Py.len (docs_as_sets self) →
  2 ≤ num_docs self →
  ∃ signatures,
    generate_minhash_signatures self = Ok signatures
    ∧ Forall (λ signature, signature = []) signatures
    ∧ calculate_similarities self signatures = Raise ZeroDivisionError.
Proof.
  intros Hok Hzero Hdocs Hmany.
  exists ((λ _, []) <$> Py.keys (docs_as_sets self)).
  assert (generate_minhash_signatures self
          = Ok ((λ _, []) <$> Py.keys (docs_as_sets self))) as Hrun.
  { rewrite generate_minhash_signatures_value by done. f_equal.
    apply list_fmap_ext. intros _ k _. unfold signature_value.
    by rewrite Hzero. }
  split_and!; [done|by apply Forall_fmap, Forall_true|].
  unfold calculate_similarities, estimated_similarity, Py.range.
  unfold Py.len, Py.keys in *.
  destruct (docs_as_sets self) as [|d0 [|d1 docs]]; simpl in Hdocs; [lia..|].
  rewrite Hzero, Z.sub_0_r.
  rewrite (seqZ_cons 0) by lia. simpl.
  rewrite (seqZ_cons (0 + 1) (num_docs self - (0 + 1))) by lia. simpl.
  change (0 + 1) with (Z.of_nat 1). by rewrite (getitem_nat _ 1 []).
Qed.

Lemma zero_hashes_divide_by_zero_witness :
  ∃ signatures,
    generate_minhash_signatures
      (mk example_docs 0 (1 # 2) 4 (2 ^ 32 - 1) 4294967311 [] [])
    = Ok signatures
    ∧ Forall (λ signature, signature = []) signatures
    ∧ calculate_similarities
        (mk example_docs 0 (1 # 2) 4 (2 ^ 32 - 1) 4294967311 [] [])
        signatures
      = Raise ZeroDivisionError.
Proof.
  apply (zero_hashes_divide_by_zero
           (mk example_docs 0 (1 # 2) 4 (2 ^ 32 - 1) 4294967311 [] []));
    [repeat split|reflexivity|reflexivity|by vm_compute]; reflexivity.
Defined.

Lemma for_in_app {A S : Type} (xs ys : list A) (body : A → S → result S)
    (s : S) :
  for_in (xs ++ ys) body s = s' ← for_in xs body s; for_in ys body s'.
Proof.
  revert s. induction xs as [|x xs IH]; intros s; simpl; [done|].
  destruct (body x s) as [s'| |]; simpl; [apply IH|done|done].
Qed.

Lemma getitem_out_of_range {A : Type} (l : list A) (i : Z) :
  Py.len l ≤ i → Py.getitem l i = Raise IndexError.
Proof.
  intros Hi. unfold Py.getitem, Py.len in *.
  replace (i <? 0) with false by lia.
  replace (i <? Z.of_nat (length l)) with false by lia.
  by rewrite andb_false_r.
Qed.

(** X15. Handed fewer signatures than the object has documents,
    [calculate_similarities] raises IndexError (the loops run to
    [num_docs], not to the length of the argument). *)
Theorem too_few_signatures (self : t) (signatures : list (list Z)) :
  0 < num_hashes self →
  Forall (λ signature, Py.len signature = num_hashes self) signatures →
  Py.len signatures < num_docs self →
  calculate_similarities self signatures = Raise IndexError.
Proof.
  intros Hpos Hlen Hfew. unfold calculate_similarities.
  assert (0 ≤ Py.len signatures) as Hnonneg by (unfold Py.len; lia).
  unfold Py.range at 1. rewrite seqZ_cons by lia. simpl.
  destruct (decide (Py.len signatures = 0)) as [Hnone|Hsome].
  - by rewrite getitem_out_of_range by lia.
  - rewrite getitem_Z by lia. simpl.
    assert (Py.range (0 + 1) (num_docs self)
            = Py.range 1 (Py.len signatures)
              ++ Py.len signatures
                 :: Py.range (Py.len signatures + 1) (num_docs self))
      as ->.
    { unfold Py.range.
      replace (num_docs self - (0 + 1))
        with ((Py.len signatures - 1)
              + (num_docs self - Py.len signatures)) by lia.
      rewrite seqZ_app by lia. f_equal.
      rewrite seqZ_cons by lia. f_equal; [lia|]. f_equal; lia. }
    rewrite for_in_app.
    rewrite (for_in_collect _ _
               (λ j, (0, j, agreement (num_hashes self)
                              (signatures !!! Z.to_nat 0)
                              (signatures !!! Z.to_nat j)))).
    + simpl. by rewrite getitem_out_of_range by lia.
    + intros j acc Hj%elem_of_range. rewrite getitem_Z by lia. simpl.
      rewrite Forall_lookup in Hlen.
      rewrite estimated_similarity_value; [done|done|..].
      * apply (Hlen (Z.to_nat 0)), list_lookup_lookup_total_lt.
        unfold Py.len in *. lia.
      * apply (Hlen (Z.to_nat j)), list_lookup_lookup_total_lt.
        unfold Py.len in *. lia.
Qed.

Lemma too_few_signatures_witness :
  calculate_similarities example_algorithm [[7; 3; 9]; [7; 3; 9]]
  = Raise IndexError.
Proof.
  apply (too_few_signatures example_algorithm [[7; 3; 9]; [7; 3; 9]]);
    [reflexivity|repeat constructor|reflexivity].
Defined.

Lemma Qred_eq_1 (c : Z) (p : positive) : Qred (c # p) = 1%Q ↔ c = Z.pos p.
Proof.
  split.
  - intros Heq. pose proof (Qred_correct (c # p)) as Hq.
    rewrite Heq in Hq. unfold Qeq in Hq. simpl in Hq. lia.
  - intros ->. change 1%Q with (Qred 1). apply Qred_complete.
    unfold Qeq. simpl. lia.
Qed.

Lemma Qred_eq_0 (c : Z) (p : positive) : Qred (c # p) = 0%Q ↔ c = 0.
Proof.
  split.
  - intros Heq. pose proof (Qred_correct (c # p)) as Hq.
    rewrite Heq in Hq. unfold Qeq in Hq. simpl in Hq. lia.
  - intros ->. change 0%Q with (Qred 0). apply Qred_complete.
    unfold Qeq. simpl. lia.
Qed.

Lemma filter_length_full {A : Type} (P : A → Prop) `{!∀ x, Decision (P x)}
    (l : list A) :
  length (filter P l) = length l ↔ Forall P l.
Proof.
  induction l as [|x l IH]; [by split; [constructor|]|].
  rewrite filter_cons, Forall_cons. pose proof (length_filter P l).
  case_decide; simpl; [rewrite <- IH|]; split; try tauto; try lia.
  intros Heq. split; [done|lia].
Qed.

Lemma filter_length_zero {A : Type} (P : A → Prop) `{!∀ x, Decision (P x)}
    (l : list A) :
  length (filter P l) = 0%nat ↔ Forall (λ x, ¬ P x) l.
Proof.
  induction l as [|x l IH]; [by split; [constructor|]|].
  rewrite filter_cons, Forall_cons.
  case_decide; simpl; [|rewrite IH]; split; try tauto; try lia.
Qed.

(** X16. For two signatures of length numHashes > 0 the estimated
    similarity is 1 exactly when the signatures are equal, and 0 exactly
    when they differ at every position. *)
Theorem similarity_extremes (self : t) (x y : list Z) :
  0 < num_hashes self →
  Py.len x = num_hashes self →
  Py.len y = num_hashes self →
  (estimated_similarity self x y = Ok 1%Q ↔ x = y)
  ∧ (estimated_similarity self x y = Ok 0%Q
     ↔ ∀ k vx vy, x !! k = Some vx → y !! k = Some vy → vx ≠ vy).
Proof.
  intros Hpos Hx Hy. rewrite estimated_similarity_value by done.
  unfold agreement, agreeing_positions, Py.len in *.
  set (n := Z.to_nat (num_hashes self)).
  assert (length x = n ∧ length y = n) as [Hnx Hny] by lia.
  split.
  - split.
    + intros [= Heq]. apply Qred_eq_1 in Heq.
      assert (length (filter (λ k, x !! k = y !! k) (seq 0 n))
              = length (seq 0 n)) as Hfull by (rewrite length_seq; lia).
      apply filter_length_full in Hfull. rewrite Forall_forall in Hfull.
      apply list_eq. intros k. destruct (decide (k < n)%nat) as [Hk|Hk].
      * apply Hfull, elem_of_seq. lia.
      * by rewrite !lookup_ge_None_2 by lia.
    + intros ->. f_equal. apply Qred_eq_1.
      assert (length (filter (λ k, y !! k = y !! k) (seq 0 n))
              = length (seq 0 n)) as Hfull
        by by apply filter_length_full, Forall_true.
      rewrite Hfull, length_seq. lia.
  - split.
    + intros [= Heq]. apply Qred_eq_0 in Heq.
      assert (length (filter (λ k, x !! k = y !! k) (seq 0 n)) = 0%nat)
        as Hnone by lia.
      apply filter_length_zero in Hnone. rewrite Forall_forall in Hnone.
      intros k vx vy Hvx Hvy ->. apply (Hnone k).
      * apply elem_of_seq. apply lookup_lt_Some in Hvx. lia.
      * by rewrite Hvx, Hvy.
    + intros Hdiff. f_equal. apply Qred_eq_0.
      assert (length (filter (λ k, x !! k = y !! k) (seq 0 n)) = 0%nat)
        as ->; [|done].
      apply filter_length_zero, Forall_forall. intros k Hk%elem_of_seq Heq.
      destruct (lookup_lt_is_Some_2 x k ltac:(lia)) as [vx Hvx].
      destruct (lookup_lt_is_Some_2 y k ltac:(lia)) as [vy Hvy].
      apply (Hdiff k vx vy Hvx Hvy). congruence.
Qed.

Lemma similarity_extremes_witness :
  (estimated_similarity example_algorithm [5; 6; 7] [5; 9; 7] = Ok 1%Q
   ↔ [5; 6; 7] = [5; 9; 7])
  ∧ (estimated_similarity example_algorithm [5; 6; 7] [5; 9; 7] = Ok 0%Q
     ↔ ∀ k vx vy,
         [5; 6; 7] !! k = Some vx → [5; 9; 7] !! k = Some vy → vx ≠ vy).
Proof.
  apply (similarity_extremes example_algorithm); reflexivity.
Defined.

Lemma agreement_never (numHashes : Z) (x y : list Z) :
  (∀ k, (k < Z.to_nat numHashes)%nat → x !! k ≠ y !! k) →
  agreement numHashes x y = 0%Q.
Proof.
  intros Hdiff. unfold agreement, agreeing_positions, Py.len.
  apply Qred_eq_0.
  assert (length (filter (λ k, x !! k = y !! k)
                    (seq 0 (Z.to_nat numHashes))) = 0%nat) as ->; [|done].
  apply filter_length_zero, Forall_forall. intros k Hk%elem_of_seq.
  apply Hdiff. lia.
Qed.

Lemma empty_signature_differs (self : t) (shingles : Py.pyset) (k : nat) :
  hash_family_ok self → shingles ≠ [] →
  (k < Z.to_nat (num_hashes self))%nat →
  signature_value self [] !! k ≠ signature_value self shingles !! k.
Proof.
  intros Hok Hne Hk. pose proof Hok as (Hp & _).
  rewrite signature_value_empty, lookup_replicate_2 by done.
  rewrite signature_value_lookup by lia.
  pose proof (slot_value_below self shingles k Hok Hne). intros [= Heq]. lia.
Qed.

(** X17. A document with no shingle (fewer words than the window) and a
    document with at least one never agree in any slot: their estimated
    similarity is exactly 0, in whichever order they come. *)
Theorem empty_against_nonempty (self : t) (i j : nat) (doc_i doc_j : Z)
    (shingles_i shingles_j : Py.pyset) :
  hash_family_ok self →
  0 < num_hashes self →
  num_docs self = Py.len (docs_as_sets self) →
  (i < j)%nat →
  Py.keys (docs_as_sets self) !! i = Some doc_i →
  Py.keys (docs_as_sets self) !! j = Some doc_j →
  Py.dict_getitem (docs_as_sets self) doc_i = Ok shingles_i →
  Py.dict_getitem (docs_as_sets self) doc_j = Ok shingles_j →
  (shingles_i = [] ∧ shingles_j ≠ []) ∨ (shingles_i ≠ [] ∧ shingles_j = []) →
  ∃ signatures similarities,
    generate_minhash_signatures self = Ok signatures
    ∧ calculate_similarities self signatures = Ok similarities
    ∧ ∀ sim, (Z.of_nat i, Z.of_nat j, sim) ∈ similarities ↔ sim = 0%Q.
Proof.
  intros Hok Hpos Hdocs Hij Hki Hkj Hi Hj Hsets.
  destruct (signature_at self i doc_i shingles_i Hok Hki Hi)
    as (signatures & Hrun & Hlen & Hsi).
  destruct (signature_at self j doc_j shingles_j Hok Hkj Hj)
    as (signatures' & Hrun' & _ & Hsj).
  rewrite Hrun in Hrun'. injection Hrun' as <-.
  exists signatures. eexists. split_and!; [done| |].
  - apply calculate_similarities_value; [done| |].
    + unfold Py.len in *. lia.
    + rewrite generate_minhash_signatures_value in Hrun by done.
      injection Hrun as <-. apply Forall_fmap, Forall_true.
      intros k. by apply signature_value_length.
  - intros sim. rewrite elem_of_similarity_pairs, !Nat2Z.id.
    rewrite (list_lookup_total_correct _ _ _ Hsi),
      (list_lookup_total_correct _ _ _ Hsj).
    rewrite agreement_never.
    + pose proof (lookup_lt_Some _ _ _ Hsj) as Hjn.
      unfold Py.len in Hdocs. split; [by intros (_ & _ & ->)|].
      intros ->. split_and!; (done || lia).
    + intros k Hk. destruct Hsets as [[-> Hne]|[Hne ->]].
      * by apply empty_signature_differs.
      * intros Heq. by apply (empty_signature_differs self shingles_i k).
Qed.

Lemma empty_against_nonempty_witness :
  ∃ signatures similarities,
    generate_minhash_signatures example_algorithm = Ok signatures
    ∧ calculate_similarities example_algorithm signatures = Ok similarities
    ∧ ∀ sim, (Z.of_nat 2, Z.of_nat 3, sim) ∈ similarities ↔ sim = 0%Q.
Proof.
  apply (empty_against_nonempty example_algorithm 2 3 3 4 [7; 8] []);
    [repeat split|reflexivity|reflexivity|lia|reflexivity..|];
    [reflexivity..|].
  right. split; done.
Defined.

Lemma running_minimum_union (h : Z → Z) (start : Z) (a b c : Py.pyset) :
  (∀ x, x ∈ c ↔ x ∈ a ∨ x ∈ b) →
  running_minimum h start c
  = Z.min (running_minimum h start a) (running_minimum h start b).
Proof.
  intros Hunion.
  destruct (running_minimum_spec h start a) as (Hlea & Hlowa & Hina).
  destruct (running_minimum_spec h start b) as (Hleb & Hlowb & Hinb).
  destruct (running_minimum_spec h start c) as (Hlec & Hlowc & Hinc).
  apply Z.le_antisymm.
  - apply Z.min_glb.
    + destruct Hina as [->|(s & Hs & ->)]; [done|].
      apply Hlowc, Hunion. by left.
    + destruct Hinb as [->|(s & Hs & ->)]; [done|].
      apply Hlowc, Hunion. by right.
  - destruct Hinc as [->|(s & [Hs|Hs]%Hunion & ->)].
    + lia.
    + specialize (Hlowa s Hs). lia.
    + specialize (Hlowb s Hs). lia.
Qed.

(** X18. Signatures are compatible with union: when the shingle set of one
    document is the union of the shingle sets of two others, each slot of
    its signature is the smaller of the two others' slots. *)
Theorem signature_of_union (self : t) (na nb nc : nat) (doc_a doc_b doc_c : Z)
    (a b c : Py.pyset) :
  hash_family_ok self →
  Py.keys (docs_as_sets self) !! na = Some doc_a →
  Py.keys (docs_as_sets self) !! nb = Some doc_b →
  Py.keys (docs_as_sets self) !! nc = Some doc_c →
  Py.dict_getitem (docs_as_sets self) doc_a = Ok a →
  Py.dict_getitem (docs_as_sets self) doc_b = Ok b →
  Py.dict_getitem (docs_as_sets self) doc_c = Ok c →
  (∀ x, x ∈ c ↔ x ∈ a ∨ x ∈ b) →
  ∃ signatures sig_a sig_b sig_c,
    generate_minhash_signatures self = Ok signatures
    ∧ signatures !! na = Some sig_a
    ∧ signatures !! nb = Some sig_b
    ∧ signatures !! nc = Some sig_c
    ∧ ∀ k va vb,
        sig_a !! k = Some va → sig_b !! k = Some vb →
        sig_c !! k = Some (Z.min va vb).
Proof.
  intros Hok Hka Hkb Hkc Ha Hb Hc Hunion.
  destruct (signature_at self na doc_a a Hok Hka Ha)
    as (signatures & Hrun & _ & Hsa).
  destruct (signature_at self nb doc_b b Hok Hkb Hb)
    as (signatures' & Hrun' & _ & Hsb).
  rewrite Hrun in Hrun'. injection Hrun' as <-.
  destruct (signature_at self nc doc_c c Hok Hkc Hc)
    as (signatures' & Hrun' & _ & Hsc).
  rewrite Hrun in Hrun'. injection Hrun' as <-.
  eexists _, _, _, _. split_and!; [done..|].
  intros k va vb. unfold signature_value. rewrite !list_lookup_fmap.
  destruct (seq 0 (Z.to_nat (num_hashes self)) !! k) as [i|]; [|done].
  simpl. intros [= <-] [= <-]. f_equal. unfold slot_value.
  by apply running_minimum_union.
Qed.

Lemma signature_of_union_witness :
  (∀ x, x ∈ [5; 1; 4; 2; 3] ↔ x ∈ [1; 2; 3] ∨ x ∈ [3; 4; 5])
  ∧ ∃ signatures sig_a sig_b sig_c,
      generate_minhash_signatures union_algorithm = Ok signatures
      ∧ signatures !! 0%nat = Some sig_a
      ∧ signatures !! 1%nat = Some sig_b
      ∧ signatures !! 2%nat = Some sig_c
      ∧ ∀ k va vb,
          sig_a !! k = Some va → sig_b !! k = Some vb →
          sig_c !! k = Some (Z.min va vb).
Proof.
  assert (∀ x, x ∈ [5; 1; 4; 2; 3] ↔ x ∈ [1; 2; 3] ∨ x ∈ [3; 4; 5])
    as Hunion.
  { intros x. rewrite !elem_of_cons, !elem_of_nil. tauto. }
  split; [exact Hunion|].
  apply (signature_of_union union_algorithm 0 1 2 1 2 3
           [1; 2; 3] [3; 4; 5] [5; 1; 4; 2; 3]);
    [repeat split|reflexivity..|exact Hunion]; reflexivity.
Defined.

(** X19. The script's computation, from the shingle sets on: when the first
    100 draws are pairwise distinct and so are the next 100, [main] returns
    n(n-1)/2 triples for n documents, each with a similarity between 0 and
    1. *)
Theorem main_returns (fuel : nat) (rng : nat → Z) (docs : Py.dict Py.pyset) :
  (100 ≤ fuel)%nat →
  NoDup (draws rng (2 ^ 32 - 1) 0 100) →
  NoDup (draws rng (2 ^ 32 - 1) 100 100) →
  ∃ similarities,
    main fuel rng docs = Ok similarities
    ∧ Py.len similarities * 2 = Py.len docs * (Py.len docs - 1)
    ∧ ∀ i j sim, (i, j, sim) ∈ similarities → Qle 0 sim ∧ Qle sim 1.
Proof.
  intros Hfuel Hda Hdb.
  assert (∃ self, __init__ fuel rng docs 100 (1 # 2) = Ok self)
    as [self Hinit].
  { unfold __init__, _pick_random_coeffs.
    change (pick_loop fuel rng ?self0 ∅ 0)
      with (pick_loop fuel rng (with_coeff_a self0 []) ∅ 0).
    rewrite pick_from_empty by (done || lia). simpl.
    rewrite pick_from_empty by (done || lia). simpl. by eexists. }
  pose proof (init_hash_family fuel rng docs 100 (1 # 2) self ltac:(lia)
                Hinit) as Hok.
  apply init_fields in Hinit as Hfields.
  destruct Hfields as (Hdocs & Hn & Hnum & _).
  destruct (pipeline_value self Hok) as (signatures & Hrun & Hlen & Hsims);
    [lia|by rewrite Hnum, Hdocs|].
  eexists. split_and!.
  - unfold main. rewrite Hinit. simpl. rewrite Hrun. simpl. exact Hsims.
  - rewrite Hnum. apply similarity_pairs_length. unfold Py.len. lia.
  - intros i j sim (_ & _ & ->)%elem_of_similarity_pairs.
    apply agreement_bounds. lia.
Qed.

Lemma main_returns_witness :
  ∃ similarities,
    main 100 Z.of_nat example_docs = Ok similarities
    ∧ Py.len similarities * 2
      = Py.len example_docs * (Py.len example_docs - 1)
    ∧ ∀ i j sim, (i, j, sim) ∈ similarities → Qle 0 sim ∧ Qle sim 1.
Proof.
  apply (main_returns 100 Z.of_nat example_docs); [lia|..];
    apply (bool_decide_unpack _); by vm_compute.
Defined.

(** ** The empty corpus *)





